(** * SimplifiedBaggingRegressor (homework5/bagging.py)

    A shallow embedding of the bagging ensemble: the bootstrap sampler, [fit],
    [predict] and the out-of-bag bookkeeping, followed by the properties the
    specification states about them.

    Conventions of the embedding.
    - A Python method that mutates [self] is a function from the object to a
      [result] carrying the updated object; an uncaught exception is [Raise].
    - [np.random] is a global generator: the methods that draw from it take
      its state and hand the new state back.
    - Attributes that [__init__] does not create are [option] fields; reading
      one that is still unset raises [AttributeError].
    - [num_bags] is a Python integer, hence in [Z]; lengths and indices are
      natural numbers.
    - The base model, the random source and the numeric values are
      interfaces (type classes); their operations are pure and total.  *)

From Stdlib Require Import String.
From Stdlib Require Import List ZArith Lia Bool Floats.
Import ListNotations.
Local Open Scope nat_scope.

Set Implicit Arguments.

(** ** Exceptions and the result monad *)

Inductive exn : Type :=
| AssertionError (msg : string)
| AttributeError (name : string)
| IndexError
| TypeError
| ValueError.

Inductive result (A : Type) : Type :=
| Ok (a : A)
| Raise (e : exn).

Arguments Ok {A} a.
Arguments Raise {A} e.

Definition bind {A B : Type} (c : result A) (k : A -> result B) : result B :=
  match c with
  | Ok a => k a
  | Raise e => Raise e
  end.

Declare Scope result_scope.
Delimit Scope result_scope with result.
Notation "x <- c ;; k" := (bind c (fun x => k))
  (at level 100, c at next level, right associativity) : result_scope.
Notation "' pat <- c ;; k" := (bind c (fun x => match x with pat => k end))
  (at level 100, pat pattern, c at next level, right associativity) : result_scope.
Local Open Scope result_scope.

(** [assert cond, msg] *)
Definition assert (cond : bool) (msg : string) : result unit :=
  if cond then Ok tt else Raise (AssertionError msg).

(** [obj.name] for an attribute that may not have been assigned yet. *)
Definition attr {A : Type} (name : string) (field : option A) : result A :=
  match field with
  | Some a => Ok a
  | None => Raise (AttributeError name)
  end.

(** [xs[i]] for a non-negative integer index. *)
Definition index {A : Type} (xs : list A) (i : nat) : result A :=
  match nth_error xs i with
  | Some a => Ok a
  | None => Raise IndexError
  end.

(** [xs[indices]], numpy indexing by an integer array. *)
Fixpoint take {A : Type} (xs : list A) (indices : list nat) : result (list A) :=
  match indices with
  | [] => Ok []
  | i :: rest =>
      x <- index xs i ;;
      ys <- take xs rest ;;
      Ok (x :: ys)
  end.

(** [range(n)] for a Python integer [n]; empty when [n <= 0]. *)
Definition range (n : Z) : list nat := seq 0 (Z.to_nat n).

(** A [for] loop whose body may raise: the accumulator is the loop's state. *)
Fixpoint foldM {A B : Type} (body : A -> B -> result A) (xs : list B) (acc : A)
  : result A :=
  match xs with
  | [] => Ok acc
  | x :: rest => acc' <- body acc x ;; foldM body rest acc'
  end.

(** ** Interfaces *)

(** How the values handed to a reduction lie in memory; numpy chooses the
    order of its additions by it.
    - [PyList]: a Python list of values, which [np.mean] turns into a numeric
      array first;
    - [ObjectRow]: a row of a two-dimensional array of dtype [object];
    - [Stack m]: the rows of a stack of arrays of [m] entries each, reduced
      along the stacking axis; the values are the entries of one column. *)
Inductive layout : Type :=
| PyList
| ObjectRow
| Stack (columns : nat).

(** Numeric values as numpy handles them (a float64 scalar, or an array).
    [vsum shape values] is the sum numpy forms of a non-empty sequence of
    values laid out as [shape], in whatever order it adds them; [vzero] is
    the empty sum; [vdivn s n] is the true division of a sum by an element
    count; [vsquare] is [** 2]; [isnan_any] is [np.isnan(_).any()], with
    [None] for a value [np.isnan] does not accept (an array of dtype
    [object]). *)
Class Numeric (V : Type) : Type := {
  vzero : V;
  vsum : layout -> list V -> V;
  vdivn : V -> nat -> V;
  vsub : V -> V -> V;
  vsquare : V -> V;
  isnan_any : V -> option bool
}.

(** The base-model capability: [model.fit(features, targets)] returns the
    fitted handle, [model.predict(features)] the predictions. *)
Class BaseModel (X V M : Type) : Type := {
  model_fit : M -> list X -> list V -> M;
  model_predict : M -> list X -> list V
}.

(** The generator behind [np.random]: one bounded draw from [0, a). *)
Class RandomSource (G : Type) : Type := {
  randint : nat -> G -> nat * G
}.

(** ** numpy operations *)

Section Numpy.
Context {V : Type} {NV : Numeric V}.

(** What [np.mean] gives on an empty sequence: the empty sum over a zero
    count (numpy warns "Mean of empty slice" and returns NaN). *)
Definition mean_of_empty : V := vdivn vzero 0.

(** [np.mean(values, axis=0)] on a sequence of values laid out as [shape]:
    their sum divided by their number. *)
Definition np_mean_in (shape : layout) (values : list V) : V :=
  match values with
  | [] => mean_of_empty
  | _ :: _ => vdivn (vsum shape values) (length values)
  end.

(** [np.mean(values, axis=0)] on a Python list of values. *)
Definition np_mean (values : list V) : V := np_mean_in PyList values.

(** The result of a reduction is a scalar or an array of values. *)
Inductive ndarray : Type :=
| NdScalar (v : V)
| NdArray (items : list V).

(** Column [i] of a stack of rows. *)
Definition column (i : nat) (rows : list (list V)) : list V :=
  map (fun row => nth i row vzero) rows.

(** [np.mean(rows, axis=0)] on a list of arrays: rows of unequal length do
    not form an array ([ValueError]); otherwise entry [i] of the result is
    the mean of column [i] of the stack. *)
Definition np_mean_axis0 (rows : list (list V)) : result ndarray :=
  match rows with
  | [] => Ok (NdScalar mean_of_empty)
  | r0 :: rest =>
      if forallb (fun r => length r =? length r0) rest
      then Ok (NdArray (map (fun i => np_mean_in (Stack (length r0)) (column i rows))
                            (seq 0 (length r0))))
      else Raise ValueError
  end.

(** What [np.array(lists, dtype=object)] makes of a list of lists: when all
    the lists have one length, a two-dimensional array whose rows are
    object arrays; otherwise a one-dimensional array that holds the Python
    lists themselves. Either way iterating yields the lists' entries row by
    row and [len] gives a row's length; the layout matters to [np.mean]. *)
Definition object_array_layout (lists : list (list V)) : layout :=
  match lists with
  | [] => PyList
  | l0 :: rest =>
      if forallb (fun l => length l =? length l0) rest then ObjectRow
      else PyList
  end.

(** [np.isnan(v).any()]; [np.isnan] raises [TypeError] on a value it does
    not accept. *)
Definition np_isnan_any (v : V) : result bool :=
  match isnan_any v with
  | Some b => Ok b
  | None => Raise TypeError
  end.
End Numpy.

Section Random.
Context {G : Type} {RS : RandomSource G}.

(** [size] successive draws from [0, a). *)
Fixpoint draws (a size : nat) (g : G) : list nat * G :=
  match size with
  | 0 => ([], g)
  | S k =>
      let (i, g1) := randint a g in
      let (rest, g2) := draws a k g1 in
      (i :: rest, g2)
  end.

(** [np.random.choice(a, size=size, replace=True)] for an integer [a]:
    an empty population is refused unless no sample is taken. *)
Definition np_random_choice (a size : nat) (g : G) : result (list nat * G) :=
  if (a =? 0) && negb (size =? 0) then Raise ValueError
  else Ok (draws a size g).
End Random.

(** ** The regressor object *)

Section Regressor.
Context {X V M G : Type}.
Context {NV : Numeric V} {BM : BaseModel X V M} {RS : RandomSource G}.

(** The attributes of a [SimplifiedBaggingRegressor]. [num_bags] and [oob]
    are set by [__init__]; the others exist once a method has assigned
    them. [oob_predictions] holds [None] for "no averaged prediction". *)
Record SimplifiedBaggingRegressor : Type := mkRegressor {
  num_bags : Z;
  oob : bool;
  indices_list : option (list (list nat));
  data : option (list X);
  target : option (list V);
  models_list : option (list M);
  list_of_predictions_lists : option (list (list V));
  oob_predictions : option (list (option V))
}.

Definition __init__ (num_bags : Z) (oob : bool) : SimplifiedBaggingRegressor :=
  mkRegressor num_bags oob None None None None None None.

Definition set_indices_list (self : SimplifiedBaggingRegressor) v :=
  mkRegressor (num_bags self) (oob self) (Some v) (data self) (target self)
    (models_list self) (list_of_predictions_lists self) (oob_predictions self).

Definition set_data (self : SimplifiedBaggingRegressor) v :=
  mkRegressor (num_bags self) (oob self) (indices_list self) (Some v)
    (target self) (models_list self) (list_of_predictions_lists self)
    (oob_predictions self).

Definition set_target (self : SimplifiedBaggingRegressor) v :=
  mkRegressor (num_bags self) (oob self) (indices_list self) (data self)
    (Some v) (models_list self) (list_of_predictions_lists self)
    (oob_predictions self).

Definition set_models_list (self : SimplifiedBaggingRegressor) v :=
  mkRegressor (num_bags self) (oob self) (indices_list self) (data self)
    (target self) (Some v) (list_of_predictions_lists self)
    (oob_predictions self).

Definition set_list_of_predictions_lists (self : SimplifiedBaggingRegressor) v :=
  mkRegressor (num_bags self) (oob self) (indices_list self) (data self)
    (target self) (models_list self) (Some v) (oob_predictions self).

Definition set_oob_predictions (self : SimplifiedBaggingRegressor) v :=
  mkRegressor (num_bags self) (oob self) (indices_list self) (data self)
    (target self) (models_list self) (list_of_predictions_lists self) (Some v).

(** *** The bootstrap sampler *)

(** One bag per iteration, appended to [self.indices_list]; the loop state
    is the list built so far and the generator. *)
Definition _generate_splits (self : SimplifiedBaggingRegressor)
    (data : list X) (g : G) : result (SimplifiedBaggingRegressor * G) :=
  let data_length := length data in
  '(bags, g') <-
    foldM (fun '(acc, g0) (_ : nat) =>
             '(bag_indices, g1) <- np_random_choice data_length data_length g0 ;;
             Ok (acc ++ [bag_indices], g1))
          (range (num_bags self)) ([], g) ;;
  Ok (set_indices_list self bags, g').

(** *** fit *)

(** [len(set(list(map(len, indices_list)))) == 1] *)
Definition bags_same_length (bags : list (list nat)) : bool :=
  length (nodup Nat.eq_dec (map (@length nat) bags)) =? 1.

(** [list(map(len, indices_list))[0] == len(data)] *)
Definition first_bag_length (bags : list (list nat)) : result nat :=
  index (map (@length nat) bags) 0.

Definition msg_same_length : string :=
  "All bags should be of the same length!".
Definition msg_len_data : string :=
  "All bags should contain `len(data)` number of elements!".

Definition fit (self : SimplifiedBaggingRegressor)
    (model_constructor : unit -> M) (data : list X) (target : list V) (g : G)
  : result (SimplifiedBaggingRegressor * G) :=
  let self := set_data self data in
  let self := set_target self target in
  '(self, g) <- _generate_splits self data g ;;
  bags <- attr "indices_list" (indices_list self) ;;
  _ <- assert (bags_same_length bags) msg_same_length ;;
  first <- first_bag_length bags ;;
  _ <- assert (first =? length data) msg_len_data ;;
  models <-
    foldM (fun acc bag =>
             let model := model_constructor tt in
             bag_indices <- index bags bag ;;
             data_bag <- take data bag_indices ;;
             bag_indices' <- index bags bag ;;
             target_bag <- take target bag_indices' ;;
             Ok (acc ++ [model_fit model data_bag target_bag]))
          (range (num_bags self)) [] ;;
  let self := set_models_list self models in
  let self :=
    if oob self then set_target (set_data self data) target else self in
  Ok (self, g).

(** *** predict *)

Definition predict (self : SimplifiedBaggingRegressor) (data : list X)
  : result (@ndarray V) :=
  models <- attr "models_list" (models_list self) ;;
  np_mean_axis0 (map (fun model => model_predict model data) models).

(** *** Out-of-bag bookkeeping *)

(** [i not in bag_indices] *)
Definition not_in (i : nat) (bag_indices : list nat) : bool :=
  negb (existsb (Nat.eqb i) bag_indices).

(** [lists[i].append(prediction)] *)
Definition append_at (lists : list (list V)) (i : nat) (prediction : V)
  : result (list (list V)) :=
  row <- index lists i ;;
  Ok (firstn i lists ++ (row ++ [prediction]) :: skipn (S i) lists).

(** The body of the inner loop: bag [bag] seen from example [i]. *)
Definition oob_bag_step (self : SimplifiedBaggingRegressor) (data0 : list X)
    (i : nat) (lists : list (list V)) (bag : nat) : result (list (list V)) :=
  bags <- attr "indices_list" (indices_list self) ;;
  bag_indices <- index bags bag ;;
  if not_in i bag_indices then
    models <- attr "models_list" (models_list self) ;;
    model <- index models bag ;;
    x <- index data0 i ;;
    prediction <- index (model_predict model [x]) 0 ;;
    append_at lists i prediction
  else Ok lists.

(** The closing [np.array(..., dtype=object)] keeps the entries of the lists:
    the attribute is modelled by the lists, and [object_array_layout] tells
    which of the two forms the array has taken. *)
Definition _get_oob_predictions_from_every_model
    (self : SimplifiedBaggingRegressor) : result SimplifiedBaggingRegressor :=
  data0 <- attr "data" (data self) ;;
  let list_of_predictions_lists := repeat (@nil V) (length data0) in
  lists <-
    foldM (fun lists i =>
             foldM (oob_bag_step self data0 i) (range (num_bags self)) lists)
          (seq 0 (length data0)) list_of_predictions_lists ;;
  Ok (set_list_of_predictions_lists self lists).

(** The body of the averaging loop: what is appended to
    [self.oob_predictions] for one prediction list, a row of an array laid
    out as [shape]. *)
Definition averaged_prediction (shape : layout) (num_bags : Z)
    (predictions : list V) : option V :=
  if (Z.of_nat (length predictions) <? num_bags)%Z
  then Some (np_mean_in shape predictions)
  else None.

Definition _get_averaged_oob_predictions
    (self : SimplifiedBaggingRegressor) : result SimplifiedBaggingRegressor :=
  self <- _get_oob_predictions_from_every_model self ;;
  lists <- attr "list_of_predictions_lists" (list_of_predictions_lists self) ;;
  let shape := object_array_layout lists in
  let oob_predictions :=
    fold_left (fun acc predictions =>
                 acc ++ [averaged_prediction shape (num_bags self) predictions])
              lists [] in
  Ok (set_oob_predictions self oob_predictions).

(** The body of the scoring loop: example [i] and the squared errors
    collected so far. *)
Definition score_step (self : SimplifiedBaggingRegressor)
    (squared_errors : list V) (i : nat) : result (list V) :=
  preds <- attr "oob_predictions" (oob_predictions self) ;;
  prediction <- index preds i ;;
  match prediction with
  | Some p =>
      targets <- attr "target" (target self) ;;
      t <- index targets i ;;
      let squared_error := vsquare (vsub p t) in
      nan <- np_isnan_any squared_error ;;
      if negb nan
      then Ok (squared_errors ++ [squared_error])
      else Ok squared_errors
  | None => Ok squared_errors
  end.

Definition OOB_score (self : SimplifiedBaggingRegressor)
  : result (V * SimplifiedBaggingRegressor) :=
  self <- _get_averaged_oob_predictions self ;;
  data0 <- attr "data" (data self) ;;
  squared_errors <- foldM (score_step self) (seq 0 (length data0)) [] ;;
  let mean_squared_error := np_mean squared_errors in
  Ok (mean_squared_error, self).
End Regressor.

Arguments SimplifiedBaggingRegressor : clear implicits.

(** ** Concrete interfaces used to run the model *)

(** float64 scalars: [np.float64] arithmetic is IEEE 754 binary64. The
    element count is converted to a float before the division. *)
Definition float_of_count (n : nat) : float :=
  PrimFloat.of_uint63 (Uint63.of_Z (Z.of_nat n)).

(** Additions one after the other, first value to last: how the entries of
    an object array, and the rows of a stack of several columns, are
    added. *)
Definition sequential_sum (a : list float) : float :=
  match a with
  | [] => 0%float
  | x :: rest => fold_left PrimFloat.add rest x
  end.

(** numpy's pairwise sum of a float64 vector. Fewer than 8 values are added
    one after the other. Up to 128 values go, eight at a time, into eight
    running sums, which are then added in pairs, the values left over last.
    Longer vectors are cut in two (at a multiple of 8) and the two sums
    added. *)
Definition add8 (r g : list float) : list float :=
  map (fun rg => PrimFloat.add (fst rg) (snd rg)) (combine r g).

Fixpoint add_groups (groups : nat) (r rest : list float)
  : list float * list float :=
  match groups with
  | 0 => (r, rest)
  | S g => add_groups g (add8 r (firstn 8 rest)) (skipn 8 rest)
  end.

Definition combine8 (r : list float) : float :=
  match r with
  | [r0; r1; r2; r3; r4; r5; r6; r7] =>
      PrimFloat.add
        (PrimFloat.add (PrimFloat.add r0 r1) (PrimFloat.add r2 r3))
        (PrimFloat.add (PrimFloat.add r4 r5) (PrimFloat.add r6 r7))
  | _ => 0%float
  end.

Definition block_sum (a : list float) : float :=
  let (r, rest) := add_groups (length a / 8 - 1) (firstn 8 a) (skipn 8 a) in
  fold_left PrimFloat.add rest (combine8 r).

Fixpoint pairwise_sum (fuel : nat) (a : list float) : float :=
  let n := length a in
  if n <? 8 then fold_left PrimFloat.add a (PrimFloat.opp 0%float)
  else if n <=? 128 then block_sum a
  else
    match fuel with
    | 0 => 0%float
    | S fuel' =>
        let n2 := n / 2 - (n / 2) mod 8 in
        PrimFloat.add (pairwise_sum fuel' (firstn n2 a))
                      (pairwise_sum fuel' (skipn n2 a))
    end.

(** The sums by layout: a Python list of float64 scalars becomes a float64
    vector and is summed pairwise, and so is a stack of one column; object
    rows and stacks of several columns are added row after row. [** 2] is
    taken as the product [x * x] (the C library's [pow], which numpy calls
    on a float64 scalar, can differ from it in the last bit). *)
#[export] Instance float_Numeric : Numeric float := {
  vzero := 0%float;
  vsum := fun shape a =>
    match shape with
    | PyList => pairwise_sum (length a) a
    | ObjectRow => sequential_sum a
    | Stack m => if m =? 1 then pairwise_sum (length a) a else sequential_sum a
    end;
  vdivn := fun s n => PrimFloat.div s (float_of_count n);
  vsub := PrimFloat.sub;
  vsquare := fun x => PrimFloat.mul x x;
  isnan_any := fun x => Some (PrimFloat.is_nan x)
}.

(** A stub base model with deterministic output: fitting remembers the mean
    of the training targets, predicting returns it for every input. The
    model handle is that remembered value. *)
#[export] Instance mean_stub (X : Type) : BaseModel X float float := {
  model_fit := fun _ _ targets => np_mean targets;
  model_predict := fun m features => map (fun _ => m) features
}.

(** A scripted random source: the draws are read off a list (reduced into
    range), and [0] is drawn once the script is used up. *)
#[export] Instance scripted : RandomSource (list nat) := {
  randint := fun a script =>
    match script with
    | [] => (0, [])
    | r :: script' => (r mod a, script')
    end
}.

(** ** Contracts of the interfaces and vocabulary of the properties *)

(** A bounded draw lies in the range it was asked for. *)
Definition randint_in_range {G : Type} {RS : RandomSource G} : Prop :=
  forall (a : nat) (g : G), 0 < a -> fst (randint a g) < a.

(** Predictions are aligned one-to-one with the input examples. *)
Definition predict_aligned {X V M : Type} {BM : BaseModel X V M} : Prop :=
  forall (m : M) (features : list X),
    length (model_predict m features) = length features.


(** ...and stays so through the squared error against any target. *)
Definition nan_squared_error {V : Type} {NV : Numeric V} : Prop :=
  forall t : V, isnan_any (vsquare (vsub mean_of_empty t)) = Some true.

(** [np.isnan] accepts every value: none is an array of dtype [object]. *)
Definition isnan_total {V : Type} {NV : Numeric V} : Prop :=
  forall v : V, isnan_any v <> None.

(** Row [i] replaced, the others kept: the effect of an append on the list
    of prediction lists. *)
Definition set_row {A : Type} (lists : list (list A)) (i : nat) (row : list A)
  : list (list A) :=
  firstn i lists ++ row :: skipn (S i) lists.

Section Vocabulary.
Context {X V M : Type}.
Context {NV : Numeric V} {BM : BaseModel X V M}.

(** The state [fit] leaves behind: one bag and one model per ensemble
    member, and the dataset with a target for every example. *)
Definition fitted (self : SimplifiedBaggingRegressor X V M)
    (bags : list (list nat)) (models : list M)
    (d : list X) (t : list V) : Prop :=
  indices_list self = Some bags /\
  models_list self = Some models /\
  data self = Some d /\
  target self = Some t /\
  (0 < num_bags self)%Z /\
  length bags = Z.to_nat (num_bags self) /\
  length models = Z.to_nat (num_bags self) /\
  length t = length d.

(** A bag as the sampler makes it for a dataset of [n] examples. *)
Definition bootstrap_bag (n : nat) (bag : list nat) : Prop :=
  length bag = n /\ Forall (fun i => i < n) bag.

(** [model.predict([x])[0]], when the model answers at all. *)
Definition direct_prediction (model : M) (x : X) : option V :=
  hd_error (model_predict model [x]).

(** The models for which example [i] is out-of-bag, in ensemble order. *)
Definition oob_models (bags : list (list nat)) (models : list M) (i : nat)
  : list M :=
  map snd (filter (fun bm => not_in i (fst bm)) (combine bags models)).

(** Those among the first [n] ensemble members. *)
Definition oob_models_upto (bags : list (list nat)) (models : list M)
    (i n : nat) : list M :=
  map snd (filter (fun bm => not_in i (fst bm))
                  (firstn n (combine bags models))).

(** What the averaging loop makes of the gathered prediction lists. *)
Definition averaged_predictions (num_bags : Z) (lists : list (list V))
  : list (option V) :=
  map (averaged_prediction (object_array_layout lists) num_bags) lists.

(** What example [i] adds to the list of squared errors: its squared error
    if its averaged prediction is present and the error has no NaN. *)
Definition contribution (preds : list (option V)) (targets : list V)
    (i : nat) : list V :=
  match nth_error preds i, nth_error targets i with
  | Some (Some p), Some t =>
      match isnan_any (vsquare (vsub p t)) with
      | Some false => [vsquare (vsub p t)]
      | _ => []
      end
  | _, _ => []
  end.

(** Example [i] has a present averaged prediction whose squared error
    [np.isnan] does not accept. *)
Definition nan_check_rejects (preds : list (option V)) (targets : list V)
    (i : nat) : Prop :=
  exists p t,
    nth_error preds i = Some (Some p) /\ nth_error targets i = Some t /\
    isnan_any (vsquare (vsub p t)) = None.

(** The same object with another [oob] flag. *)
Definition with_oob (self : SimplifiedBaggingRegressor X V M) (flag : bool)
  : SimplifiedBaggingRegressor X V M :=
  mkRegressor (num_bags self) flag (indices_list self) (data self)
    (target self) (models_list self) (list_of_predictions_lists self)
    (oob_predictions self).
End Vocabulary.

(** A dataset of three examples, and the draws that make the two bags
    [0,0,1] and [0,0,0]: example 0 is in both bags, example 1 in the first
    only, example 2 in neither. *)
Definition example_data : list nat := [10; 11; 12].
Definition example_target : list float := [1%float; 2%float; 6%float].
Definition example_script : list nat := [0; 0; 1; 0; 0; 0].

(** [SimplifiedBaggingRegressor(num_bags=2, oob=flag)] over the stub model. *)
Definition example_new (flag : bool) : SimplifiedBaggingRegressor nat float float :=
  __init__ 2%Z flag.

(** The run of [fit] on it with [num_bags = 2]. *)
Definition three_examples : result (SimplifiedBaggingRegressor nat float float) :=
  '(self, _) <- fit (example_new false) (fun _ => 0%float)
                   example_data example_target example_script ;;
  Ok self.

(** The object that run leaves: the stub models hold the mean target of
    their bags. *)
Definition example_bags : list (list nat) := [[0; 0; 1]; [0; 0; 0]].
Definition example_models : list float :=
  [np_mean [1%float; 1%float; 2%float]; np_mean [1%float; 1%float; 1%float]].
Definition example_fitted : SimplifiedBaggingRegressor nat float float :=
  mkRegressor 2%Z false (Some example_bags) (Some example_data)
    (Some example_target) (Some example_models) None None.

(** The object left by a [fit] with [num_bags = 1] and the bag [0,0,1]. *)
Definition single_bag_example : SimplifiedBaggingRegressor nat float float :=
  mkRegressor 1%Z true (Some [[0; 0; 1]]) (Some example_data)
    (Some example_target) (Some [np_mean [1%float; 1%float; 2%float]])
    None None.

(** [SimplifiedBaggingRegressor(num_bags=0)] over the stub model. *)
Definition example_no_bags : SimplifiedBaggingRegressor nat float float :=
  __init__ 0%Z false.

(** * Properties *)

(** ** The result monad and loops *)

Lemma index_Ok {A : Type} (xs : list A) (i : nat) (a : A) :
  nth_error xs i = Some a -> index xs i = Ok a.
Proof. unfold index. intros ->. reflexivity. Qed.

Lemma index_lt {A : Type} (xs : list A) (i : nat) :
  i < length xs -> exists a, nth_error xs i = Some a /\ index xs i = Ok a.
Proof.
  intros Hi. destruct (nth_error xs i) as [a|] eqn:E.
  - exists a. split; [reflexivity | now apply index_Ok].
  - apply nth_error_None in E. lia.
Qed.

Lemma foldM_app {A B : Type} (body : A -> B -> result A) (xs ys : list B) (acc : A) :
  foldM body (xs ++ ys) acc = (acc' <- foldM body xs acc ;; foldM body ys acc').
Proof.
  revert acc. induction xs as [|x xs IH]; intros acc; simpl; [reflexivity|].
  destruct (body acc x) as [acc'|e]; simpl; [apply IH | reflexivity].
Qed.

Lemma foldM_ext {A B : Type} (f g : A -> B -> result A) (xs : list B) (acc : A) :
  (forall a x, In x xs -> f a x = g a x) -> foldM f xs acc = foldM g xs acc.
Proof.
  revert acc. induction xs as [|x xs IH]; intros acc H; simpl; [reflexivity|].
  rewrite (H acc x (or_introl eq_refl)).
  destruct (g acc x) as [acc'|e]; simpl; [|reflexivity].
  apply IH. intros a y Hy. apply H. now right.
Qed.

(** Rewrite a loop of the goal with an equation that matches it up to
    computation. *)
Ltac rewrite_loop E :=
  match type of E with
  | _ = ?rhs =>
      match goal with
      | |- context [foldM ?f ?l ?a] =>
          let H := fresh in
          assert (H : foldM f l a = rhs) by exact E; rewrite H; clear H
      end
  end.

Lemma take_Ok {A : Type} (xs : list A) (indices : list nat) :
  Forall (fun i => i < length xs) indices ->
  exists ys, take xs indices = Ok ys /\ length ys = length indices.
Proof.
  induction 1 as [|i rest Hi _ IH]; simpl.
  - exists []. split; reflexivity.
  - destruct (index_lt xs Hi) as (a & _ & ->). destruct IH as (ys & -> & Hlen).
    simpl. exists (a :: ys). split; [reflexivity | simpl; congruence].
Qed.

(** ** The bootstrap sampler *)

Section Sampler.
Context {G : Type} {RS : RandomSource G}.

Lemma draws_length (a size : nat) (g : G) :
  length (fst (draws a size g)) = size.
Proof.
  revert g. induction size as [|k IH]; intros g; simpl; [reflexivity|].
  destruct (randint a g) as [i g1]. specialize (IH g1).
  destruct (draws a k g1) as [rest g2]. simpl in *. congruence.
Qed.

Lemma draws_range (a size : nat) (g : G) :
  randint_in_range -> 0 < a -> Forall (fun i => i < a) (fst (draws a size g)).
Proof.
  intros Hr Ha. revert g. induction size as [|k IH]; intros g; simpl.
  - constructor.
  - pose proof (Hr a g Ha) as Hi. destruct (randint a g) as [i g1].
    specialize (IH g1). destruct (draws a k g1) as [rest g2]. simpl in *.
    constructor; assumption.
Qed.

(** A non-empty population, or an empty one sampled zero times, is never
    refused. *)
Lemma np_random_choice_Ok (n : nat) (g : G) :
  np_random_choice n n g = Ok (draws n n g).
Proof.
  unfold np_random_choice. destruct n; reflexivity.
Qed.

(** The sampling loop, from any list of bags built so far. *)
Lemma sampling_loop (n : nat) (todo : list nat) (acc : list (list nat)) (g : G) :
  exists new g',
    foldM (fun '(acc, g0) (_ : nat) =>
             '(bag_indices, g1) <- np_random_choice n n g0 ;;
             Ok (acc ++ [bag_indices], g1)) todo (acc, g)
    = Ok (acc ++ new, g') /\
    length new = length todo /\
    Forall (fun bag => length bag = n) new /\
    (randint_in_range -> 0 < n -> Forall (bootstrap_bag n) new).
Proof.
  revert acc g. induction todo as [|b todo IH]; intros acc g; simpl.
  - exists [], g. rewrite app_nil_r. repeat split; constructor.
  - rewrite np_random_choice_Ok. simpl.
    pose proof (draws_length n n g) as Hlen.
    pose proof (fun Hr Hn => @draws_range n n g Hr Hn) as Hrange.
    destruct (draws n n g) as [bag g1]. simpl in *.
    destruct (IH (acc ++ [bag]) g1) as (new & g' & -> & Hn & Hl & Hb).
    exists (bag :: new), g'. rewrite <- app_assoc. simpl.
    repeat split; [congruence | now constructor |].
    intros Hr Hpos. constructor; [split; auto | auto].
Qed.
End Sampler.

Section SamplerClaims.
Context {X V M G : Type}.
Context {NV : Numeric V} {BM : BaseModel X V M} {RS : RandomSource G}.
Implicit Types self : SimplifiedBaggingRegressor X V M.

Lemma generate_splits_spec self (d : list X) (g : G) :
  exists bags g',
    _generate_splits self d g = Ok (set_indices_list self bags, g') /\
    length bags = Z.to_nat (num_bags self) /\
    Forall (fun bag => length bag = length d) bags /\
    (randint_in_range -> 0 < length d -> Forall (bootstrap_bag (length d)) bags).
Proof.
  unfold _generate_splits.
  destruct (sampling_loop (length d) (range (num_bags self)) [] g)
    as (new & g' & -> & Hn & Hl & Hb).
  simpl. exists new, g'. repeat split; auto.
  rewrite Hn. unfold range. apply length_seq.
Qed.

(** C7. For a dataset of N > 0 examples and num_bags = B > 0, the sampler
    returns normally with exactly B bags stored in [indices_list], each an
    ordered sequence of exactly N indices, every index in [0, N). *)
Theorem sampler_bags self (d : list X) (g : G) :
  randint_in_range -> 0 < length d -> (0 < num_bags self)%Z ->
  exists bags g',
    _generate_splits self d g = Ok (set_indices_list self bags, g') /\
    Z.of_nat (length bags) = num_bags self /\
    Forall (fun bag => length bag = length d /\
                       Forall (fun i => i < length d) bag) bags.
Proof.
  intros Hr Hd HB.
  destruct (generate_splits_spec self d g) as (bags & g' & E & Hn & _ & Hb).
  exists bags, g'. repeat split; [exact E | lia | exact (Hb Hr Hd)].
Qed.

Lemma nodup_constant (n : nat) (l : list nat) :
  Forall (fun x => x = n) l -> l <> [] -> nodup Nat.eq_dec l = [n].
Proof.
  induction 1 as [|x l Hx Hl IH]; intros Hne; [congruence|]. subst x. simpl.
  destruct l as [|y l'].
  - reflexivity.
  - destruct (in_dec Nat.eq_dec n (y :: l')) as [_|Hnot].
    + apply IH. discriminate.
    + exfalso. apply Hnot. left. now inversion Hl.
Qed.

Lemma index_Raise {A : Type} (xs : list A) (i : nat) (e : exn) :
  index xs i = Raise e -> e = IndexError.
Proof. unfold index. destruct (nth_error xs i); congruence. Qed.

Lemma take_Raise {A : Type} (xs : list A) (indices : list nat) (e : exn) :
  take xs indices = Raise e -> e = IndexError.
Proof.
  induction indices as [|i rest IH]; simpl; [discriminate|].
  destruct (index xs i) as [a|e'] eqn:E; simpl.
  - destruct (take xs rest) as [ys|e'']; simpl; [discriminate|].
    intros [= <-]. now apply IH.
  - intros [= <-]. now apply index_Raise in E.
Qed.

(** The training loop of [fit] can only fail on an index. *)
Lemma training_loop_Raise (ctor : unit -> M) (bags : list (list nat))
    (d : list X) (t : list V) (todo : list nat) (acc : list M) (e : exn) :
  foldM (fun acc bag =>
           let model := ctor tt in
           bag_indices <- index bags bag ;;
           data_bag <- take d bag_indices ;;
           bag_indices' <- index bags bag ;;
           target_bag <- take t bag_indices' ;;
           Ok (acc ++ [model_fit model data_bag target_bag])) todo acc
  = Raise e -> e = IndexError.
Proof.
  revert acc. induction todo as [|b todo IH]; intros acc; simpl; [discriminate|].
  destruct (index bags b) as [bi|e1] eqn:E1; simpl;
    [| intros [= <-]; now apply index_Raise in E1].
  destruct (take d bi) as [db|e2] eqn:E2; simpl;
    [| intros [= <-]; now apply take_Raise in E2].
  destruct (take t bi) as [tb|e3] eqn:E3; simpl;
    [| intros [= <-]; now apply take_Raise in E3].
  apply IH.
Qed.

(** Bags of one length, at least one of them, pass both checks of [fit]. *)
Lemma bag_checks_pass (n : nat) (bags : list (list nat)) :
  bags <> [] -> Forall (fun bag => length bag = n) bags ->
  bags_same_length bags = true /\ first_bag_length bags = Ok n.
Proof.
  intros Hne Hl. destruct bags as [|bag bags]; [congruence|]. split.
  - unfold bags_same_length. rewrite (@nodup_constant n).
    + reflexivity.
    + clear Hne. induction Hl; simpl; constructor; auto.
    + discriminate.
  - unfold first_bag_length, index. simpl. inversion Hl; subst. reflexivity.
Qed.

(** With at least one bag to draw, [fit] gets past both assertions. *)
Lemma fit_not_AssertionError self (ctor : unit -> M)
    (d : list X) (t : list V) (g : G) (msg : string) :
  (0 < num_bags self)%Z -> fit self ctor d t g <> Raise (AssertionError msg).
Proof.
  intros HB. unfold fit.
  destruct (generate_splits_spec (set_target (set_data self d) t) d g)
    as (bags & g' & -> & Hn & Hl & _).
  destruct (@bag_checks_pass (length d) bags) as [Hsame Hfirst];
    [destruct bags; [simpl in Hn; lia | discriminate] | exact Hl |].
  simpl. rewrite Hsame. simpl. rewrite Hfirst. simpl.
  rewrite Nat.eqb_refl. simpl.
  match goal with |- context [foldM ?f ?l ?a] =>
    destruct (foldM f l a) as [models|e] eqn:E end; simpl.
  - destruct (oob self); discriminate.
  - intros [= ->]. apply training_loop_Raise in E. discriminate.
Qed.

(** C6. With num_bags > 0 the sampler returns bags that pass both checks
    of [fit]: their lengths form a one-element set, and the first length
    equals [len(data)]; [fit] therefore never raises [AssertionError].
    (The dataset need not even be non-empty.) *)
Theorem fit_assertions_hold self (ctor : unit -> M)
    (d : list X) (t : list V) (g : G) :
  (0 < num_bags self)%Z ->
  (exists bags g',
     _generate_splits self d g = Ok (set_indices_list self bags, g') /\
     bags_same_length bags = true /\
     first_bag_length bags = Ok (length d)) /\
  (forall msg, fit self ctor d t g <> Raise (AssertionError msg)).
Proof.
  intros HB. split.
  - destruct (generate_splits_spec self d g) as (bags & g' & E & Hn & Hl & _).
    exists bags, g'. split; [exact E|]. apply bag_checks_pass; [| exact Hl].
    destruct bags; [simpl in Hn; lia | discriminate].
  - intros msg. now apply fit_not_AssertionError.
Qed.
End SamplerClaims.

(** ** fit *)

Section FitClaims.
Context {X V M G : Type}.
Context {NV : Numeric V} {BM : BaseModel X V M} {RS : RandomSource G}.
Implicit Types self : SimplifiedBaggingRegressor X V M.

Lemma training_loop_Ok (ctor : unit -> M) (bags : list (list nat))
    (d : list X) (t : list V) (todo : list nat) (acc : list M) :
  length t = length d ->
  Forall (bootstrap_bag (length d)) bags ->
  Forall (fun b => b < length bags) todo ->
  exists new,
    foldM (fun acc bag =>
             let model := ctor tt in
             bag_indices <- index bags bag ;;
             data_bag <- take d bag_indices ;;
             bag_indices' <- index bags bag ;;
             target_bag <- take t bag_indices' ;;
             Ok (acc ++ [model_fit model data_bag target_bag])) todo acc
    = Ok (acc ++ new) /\ length new = length todo.
Proof.
  intros Ht Hbags Htodo. revert acc.
  induction Htodo as [|b todo Hb _ IH]; intros acc; simpl.
  - exists []. now rewrite app_nil_r.
  - destruct (index_lt bags Hb) as (bag & Hnth & ->). simpl.
    assert (Hbag : bootstrap_bag (length d) bag).
    { rewrite Forall_forall in Hbags. apply Hbags. eapply nth_error_In; eauto. }
    destruct Hbag as [_ Hrange].
    destruct (take_Ok d Hrange) as (db & -> & _). simpl.
    rewrite <- Ht in Hrange. destruct (take_Ok t Hrange) as (tb & -> & _). simpl.
    destruct (IH (acc ++ [model_fit (ctor tt) db tb])) as (new & E & Hlen).
    exists (model_fit (ctor tt) db tb :: new).
    split; [| simpl; congruence].
    etransitivity; [exact E|]. now rewrite <- app_assoc.
Qed.

(** With a target for every example and at least one bag, [fit] returns
    normally; the object then holds the bags, the models and, whatever the
    [oob] flag, the dataset and the targets. *)
Lemma fit_Ok self (ctor : unit -> M) (d : list X) (t : list V) (g : G) :
  randint_in_range -> (0 < num_bags self)%Z -> length t = length d ->
  exists bags models g',
    fit self ctor d t g
    = Ok (mkRegressor (num_bags self) (oob self) (Some bags) (Some d) (Some t)
            (Some models) (list_of_predictions_lists self)
            (oob_predictions self), g') /\
    length bags = Z.to_nat (num_bags self) /\
    length models = Z.to_nat (num_bags self) /\
    Forall (bootstrap_bag (length d)) bags.
Proof.
  intros Hr HB Ht.
  assert (Hassert : forall msg, fit self ctor d t g <> Raise (AssertionError msg))
    by (intros msg; now apply fit_not_AssertionError).
  revert Hassert. unfold fit.
  destruct (generate_splits_spec (set_target (set_data self d) t) d g)
    as (bags & g' & -> & Hn & Hl & Hb). simpl in Hn |- *.
  assert (Hbags : Forall (bootstrap_bag (length d)) bags).
  { destruct (Nat.eq_dec (length d) 0) as [Hz|Hnz]; [| apply Hb; [exact Hr | lia]].
    rewrite Forall_forall in Hl |- *. intros bag Hin. specialize (Hl bag Hin).
    split; [exact Hl|]. rewrite Hz in Hl. destruct bag; [constructor | discriminate]. }
  destruct (assert (bags_same_length bags) msg_same_length) as [[]|e1] eqn:E1;
    simpl; [| unfold assert in E1; destruct (bags_same_length bags);
              [discriminate | injection E1 as <-; intros H; now destruct (H msg_same_length)]].
  destruct (first_bag_length bags) as [first|e2] eqn:E2; simpl.
  2:{ exfalso. unfold first_bag_length, index in E2.
      destruct bags; [simpl in Hn; lia | discriminate]. }
  destruct (assert (first =? length d) msg_len_data) as [[]|e3] eqn:E3;
    simpl; [| unfold assert in E3; destruct (first =? length d);
              [discriminate | injection E3 as <-; intros H; now destruct (H msg_len_data)]].
  intros _.
  destruct (@training_loop_Ok ctor bags d t (range (num_bags self)) [] Ht Hbags)
    as (models & E & Hm).
  { unfold range. rewrite Forall_forall. intros b Hin. apply in_seq in Hin. lia. }
  rewrite_loop E. simpl. exists bags, models, g'.
  split; [| split; [exact Hn | split; [| exact Hbags]]].
  - clear. destruct self as [B [|] i0 d0 t0 m0 l0 p0]; reflexivity.
  - rewrite Hm. unfold range. apply length_seq.
Qed.

Lemma fit_fitted self (ctor : unit -> M) (d : list X) (t : list V) (g : G) :
  randint_in_range -> (0 < num_bags self)%Z -> length t = length d ->
  exists self' g' bags models,
    fit self ctor d t g = Ok (self', g') /\ fitted self' bags models d t /\
    num_bags self' = num_bags self /\ oob self' = oob self.
Proof.
  intros Hr HB Ht.
  destruct (fit_Ok self ctor d t g Hr HB Ht) as (bags & models & g' & E & Hb & Hm & _).
  eexists _, g', bags, models. split; [exact E|].
  unfold fitted. simpl. repeat split; auto.
Qed.
End FitClaims.

(** ** predict *)

Section PredictClaims.
Context {X V M : Type}.
Context {NV : Numeric V} {BM : BaseModel X V M}.
Implicit Types self : SimplifiedBaggingRegressor X V M.

Lemma nth_error_map_seq {A : Type} (f : nat -> A) (n i : nat) :
  i < n -> nth_error (map f (seq 0 n)) i = Some (f i).
Proof.
  intros Hi. rewrite nth_error_map, nth_error_seq.
  destruct (Nat.ltb_spec i n); [reflexivity | lia].
Qed.

(** C5. On a fitted ensemble whose models answer one prediction per
    example, [predict] on M examples returns an array of M values, the
    i-th being the mean, over all num_bags models in ensemble order, of
    each model's prediction for example i (the mean as numpy forms it for
    a stack of M columns). *)
Theorem predict_mean self (bags : list (list nat)) (models : list M)
    (d0 : list X) (t0 : list V) (d : list X) :
  fitted self bags models d0 t0 -> predict_aligned ->
  exists out,
    predict self d = Ok (NdArray out) /\
    length out = length d /\
    Z.of_nat (length models) = num_bags self /\
    forall i, i < length d ->
      nth_error out i
      = Some (np_mean_in (Stack (length d))
                (map (fun m => nth i (model_predict m d) vzero) models)).
Proof.
  intros (_ & Hm & _ & _ & HB & _ & Hlen & _) Hal.
  unfold predict. rewrite Hm. simpl.
  destruct models as [|m0 rest]; [simpl in Hlen; lia|].
  unfold np_mean_axis0. cbn [map].
  replace (forallb _ _) with true.
  2:{ symmetry. apply forallb_forall. intros r Hin. apply in_map_iff in Hin.
      destruct Hin as (m & <- & _). rewrite !Hal. apply Nat.eqb_refl. }
  rewrite (Hal m0 d).
  eexists. split; [reflexivity|]. split; [| split].
  - rewrite length_map. apply length_seq.
  - lia.
  - intros i Hi. rewrite nth_error_map_seq by exact Hi.
    unfold column. cbn [map]. rewrite map_map. reflexivity.
Qed.
End PredictClaims.

(** ** Out-of-bag bookkeeping *)

Section ListFacts.
Context {A : Type}.

Lemma firstn_snoc (l : list A) (n : nat) (x : A) :
  nth_error l n = Some x -> firstn (S n) l = firstn n l ++ [x].
Proof.
  revert n. induction l as [|a l IH]; intros [|n]; simpl; try discriminate.
  - now intros [= ->].
  - intros H. f_equal. now apply IH.
Qed.

Lemma nth_error_combine {B : Type} (l : list A) (l' : list B) (n : nat) a b :
  nth_error l n = Some a -> nth_error l' n = Some b ->
  nth_error (combine l l') n = Some (a, b).
Proof.
  revert l' n. induction l as [|a0 l IH]; intros [|b0 l'] [|n]; simpl;
    try discriminate.
  - now intros [= ->] [= ->].
  - apply IH.
Qed.

Lemma set_row_length (lists : list (list A)) (i : nat) (row : list A) :
  i < length lists -> length (set_row lists i row) = length lists.
Proof.
  intros Hi. unfold set_row. rewrite length_app, length_firstn.
  cbn [length]. rewrite length_skipn. lia.
Qed.

Lemma set_row_same (lists : list (list A)) (i : nat) (row : list A) :
  i < length lists -> nth_error (set_row lists i row) i = Some row.
Proof.
  intros Hi. unfold set_row. rewrite nth_error_app2; rewrite length_firstn.
  - replace (i - Nat.min i (length lists)) with 0 by lia. reflexivity.
  - lia.
Qed.

Lemma set_row_other (lists : list (list A)) (i j : nat) (row : list A) :
  i < length lists -> j <> i ->
  nth_error (set_row lists i row) j = nth_error lists j.
Proof.
  intros Hi Hj. unfold set_row.
  rewrite <- (firstn_skipn i lists) at 3.
  destruct (Nat.lt_ge_cases j i) as [Hlt|Hge].
  - rewrite !nth_error_app1 by (rewrite length_firstn; lia). reflexivity.
  - rewrite !nth_error_app2 by (rewrite length_firstn; lia).
    rewrite length_firstn. replace (Nat.min i (length lists)) with i by lia.
    destruct (j - i) as [|k] eqn:E; [lia|].
    change (nth_error (row :: skipn (S i) lists) (S k))
      with (nth_error (skipn (S i) lists) k).
    rewrite !nth_error_skipn. f_equal. lia.
Qed.

Lemma set_row_twice (lists : list (list A)) (i : nat) (row row' : list A) :
  i < length lists -> set_row (set_row lists i row) i row' = set_row lists i row'.
Proof.
  intros Hi. apply nth_error_ext. intros j.
  destruct (Nat.eq_dec j i) as [->|Hj].
  - rewrite !set_row_same; rewrite ?set_row_length; auto.
  - rewrite !set_row_other; rewrite ?set_row_length; auto.
Qed.
End ListFacts.

Section GatherClaims.
Context {X V M : Type}.
Context {NV : Numeric V} {BM : BaseModel X V M}.
Implicit Types self : SimplifiedBaggingRegressor X V M.

Lemma set_row_id (lists : list (list V)) (i : nat) (row : list V) :
  nth_error lists i = Some row -> set_row lists i row = lists.
Proof.
  intros H. assert (Hi : i < length lists).
  { apply nth_error_Some. congruence. }
  apply nth_error_ext. intros j. destruct (Nat.eq_dec j i) as [->|Hj].
  - rewrite set_row_same; auto.
  - rewrite set_row_other; auto.
Qed.

Lemma append_at_Ok (lists : list (list V)) (i : nat) (row : list V) (p : V) :
  nth_error lists i = Some row ->
  append_at lists i p = Ok (set_row lists i (row ++ [p])).
Proof. intros H. unfold append_at. now rewrite (index_Ok _ _ H). Qed.

Lemma aligned_direct_prediction (m : M) (x : X) :
  predict_aligned ->
  exists p, direct_prediction m x = Some p /\ index (model_predict m [x]) 0 = Ok p.
Proof.
  intros Hal. unfold direct_prediction. specialize (Hal m [x]).
  destruct (model_predict m [x]) as [|p rest]; [discriminate|].
  exists p. split; reflexivity.
Qed.

(** The inner loop: after the first [n] bags, row [i] has grown by the
    predictions of the out-of-bag models among them; no other row moved. *)
Lemma bag_loop self bags models (d : list X) (t : list V)
    (i : nat) (x : X) (lists : list (list V)) (row0 : list V) (n : nat) :
  fitted self bags models d t -> predict_aligned ->
  nth_error d i = Some x -> nth_error lists i = Some row0 ->
  n <= Z.to_nat (num_bags self) ->
  exists new,
    foldM (oob_bag_step self d i) (seq 0 n) lists
    = Ok (set_row lists i (row0 ++ new)) /\
    map Some new
    = map (fun m => direct_prediction m x) (oob_models_upto bags models i n).
Proof.
  intros (Hb & Hm & _ & _ & _ & Hlb & Hlm & _) Hal Hx Hrow.
  assert (Hi : i < length lists) by (apply nth_error_Some; congruence).
  induction n as [|n IH]; intros Hn.
  - exists []. simpl. rewrite app_nil_r. now rewrite set_row_id.
  - destruct IH as (new & Eloop & Hnew); [lia|].
    rewrite seq_S, foldM_app, Eloop. simpl.
    destruct (@index_lt _ bags n) as (bag & Hbag & Ebag); [lia|].
    destruct (@index_lt _ models n) as (m & Hmod & Emod); [lia|].
    unfold oob_bag_step. rewrite Hb. simpl. rewrite Ebag. simpl.
    unfold oob_models_upto.
    rewrite (firstn_snoc _ _ (nth_error_combine _ _ _ Hbag Hmod)).
    rewrite filter_app. simpl.
    destruct (not_in i bag) eqn:Enot.
    + rewrite Hm. simpl. rewrite Emod. simpl. rewrite (index_Ok _ _ Hx). simpl.
      destruct (aligned_direct_prediction m x Hal) as (p & Hp & ->). simpl.
      rewrite (@append_at_Ok _ i (row0 ++ new)) by (now apply set_row_same).
      exists (new ++ [p]). rewrite set_row_twice by exact Hi.
      rewrite <- app_assoc. split; [reflexivity|].
      rewrite !map_app. simpl. now rewrite Hnew, Hp.
    + exists new. rewrite app_nil_r. split; [reflexivity | exact Hnew].
Qed.
Lemma oob_models_upto_all (bags : list (list nat)) (models : list M) (i : nat) :
  oob_models_upto bags models i (length bags) = oob_models bags models i.
Proof.
  unfold oob_models_upto, oob_models. rewrite firstn_all2; [reflexivity|].
  rewrite length_combine. lia.
Qed.

(** The outer loop: after the first [n] examples their rows are final, and
    the rows of the examples still to come are empty. *)
Lemma example_loop self bags models (d : list X) (t : list V) (n : nat) :
  fitted self bags models d t -> predict_aligned -> n <= length d ->
  exists lists,
    foldM (fun lists i =>
             foldM (oob_bag_step self d i) (range (num_bags self)) lists)
          (seq 0 n) (repeat [] (length d))
    = Ok lists /\
    length lists = length d /\
    (forall i x, i < n -> nth_error d i = Some x ->
       exists row,
         nth_error lists i = Some row /\
         map Some row
         = map (fun m => direct_prediction m x) (oob_models bags models i)) /\
    (forall i, n <= i -> i < length d -> nth_error lists i = Some []).
Proof.
  intros Hfit Hal. induction n as [|n IH]; intros Hn.
  - exists (repeat [] (length d)). simpl. split; [reflexivity|].
    split; [apply repeat_length|]. split; [intros; lia|].
    intros i _ Hi. rewrite nth_error_repeat; [reflexivity | exact Hi].
  - destruct IH as (lists & Eloop & Hlen & Hdone & Htodo); [lia|].
    rewrite seq_S, foldM_app, Eloop. simpl.
    destruct (@index_lt _ d n) as (x & Hx & _); [lia|].
    pose proof (Htodo n (le_n n) Hn) as Hrow.
    destruct (@bag_loop self bags models d t n x lists [] (Z.to_nat (num_bags self))
                Hfit Hal Hx Hrow (le_n _)) as (new & Ebags & Hnew).
    unfold range. rewrite Ebags. simpl.
    assert (Hlb : length bags = Z.to_nat (num_bags self)) by apply Hfit.
    rewrite <- Hlb, oob_models_upto_all in Hnew.
    eexists. split; [reflexivity|].
    assert (Hi : n < length lists) by lia.
    split; [now rewrite set_row_length|]. split.
    + intros i y Hlt Hy. destruct (Nat.eq_dec i n) as [->|Hne].
      * exists new. rewrite set_row_same by exact Hi.
        split; [reflexivity|]. assert (y = x) by congruence. subst y. exact Hnew.
      * rewrite set_row_other by auto. apply Hdone; [lia | exact Hy].
    + intros i Hge Hlt. rewrite set_row_other by (auto; lia).
      apply Htodo; lia.
Qed.

(** The gathering step on a fitted ensemble. *)
Lemma gather_spec self bags models (d : list X) (t : list V) :
  fitted self bags models d t -> predict_aligned ->
  exists lists,
    _get_oob_predictions_from_every_model self
    = Ok (set_list_of_predictions_lists self lists) /\
    length lists = length d /\
    forall i x, nth_error d i = Some x ->
      exists row,
        nth_error lists i = Some row /\
        map Some row
        = map (fun m => direct_prediction m x) (oob_models bags models i).
Proof.
  intros Hfit Hal.
  destruct (@example_loop self bags models d t (length d) Hfit Hal (le_n _))
    as (lists & Eloop & Hlen & Hrows & _).
  assert (Hd : data self = Some d) by apply Hfit.
  unfold _get_oob_predictions_from_every_model. rewrite Hd. simpl.
  rewrite Eloop. simpl. exists lists. split; [reflexivity|]. split; [exact Hlen|].
  intros i x Hx. apply Hrows; [| exact Hx].
  apply nth_error_Some. congruence.
Qed.

(** C8. In the gathering step on a fitted ensemble, the prediction list of
    every training example i holds, in ensemble order, the predictions
    [model.predict([data[i]])[0]] of exactly those models b whose bag does
    not contain i: model b's prediction is appended when i is not in bag b,
    and nothing is appended when it is. In particular the list has as many
    entries as there are bags without i. *)
Theorem oob_gathering self bags models (d : list X) (t : list V) :
  fitted self bags models d t -> predict_aligned ->
  exists lists,
    _get_oob_predictions_from_every_model self
    = Ok (set_list_of_predictions_lists self lists) /\
    length lists = length d /\
    forall i x, nth_error d i = Some x ->
      exists row,
        nth_error lists i = Some row /\
        map Some row
        = map (fun m => direct_prediction m x)
              (map snd (filter (fun bm => negb (existsb (Nat.eqb i) (fst bm)))
                               (combine bags models))) /\
        length row
        = length (filter (fun bag => negb (existsb (Nat.eqb i) bag)) bags).
Proof.
  intros Hfit Hal.
  destruct (gather_spec Hfit Hal) as (lists & E & Hlen & Hrows).
  exists lists. split; [exact E|]. split; [exact Hlen|].
  intros i x Hx. destruct (Hrows i x Hx) as (row & Hnth & Hmap).
  exists row. split; [exact Hnth|]. split; [exact Hmap|].
  apply (f_equal (@length _)) in Hmap. rewrite !length_map in Hmap.
  rewrite Hmap. unfold oob_models. rewrite length_map.
  assert (Hl : length bags = length models).
  { destruct Hfit as (_ & _ & _ & _ & _ & Hb & Hm & _). congruence. }
  clear -Hl. revert models Hl.
  induction bags as [|bag bags IH]; intros [|m models] Hl; simpl in *;
    try discriminate; [reflexivity|].
  unfold not_in at 1. destruct (negb (existsb (Nat.eqb i) bag)); simpl;
    rewrite IH by congruence; reflexivity.
Qed.
End GatherClaims.

(** ** Averaging and scoring *)

Section ScoreClaims.
Context {X V M : Type}.
Context {NV : Numeric V} {BM : BaseModel X V M}.
Implicit Types self : SimplifiedBaggingRegressor X V M.

Lemma append_loop_map {A B : Type} (f : A -> B) (xs : list A) (acc : list B) :
  fold_left (fun acc x => acc ++ [f x]) xs acc = acc ++ map f xs.
Proof.
  revert acc. induction xs as [|x xs IH]; intros acc; simpl.
  - now rewrite app_nil_r.
  - rewrite IH, <- app_assoc. reflexivity.
Qed.

(** The averaging step on a fitted ensemble: one entry per prediction list,
    made by the body of the loop. *)
Lemma averaged_spec self bags models (d : list X) (t : list V) :
  fitted self bags models d t -> predict_aligned ->
  exists lists,
    _get_averaged_oob_predictions self
    = Ok (set_oob_predictions (set_list_of_predictions_lists self lists)
            (averaged_predictions (num_bags self) lists)) /\
    length lists = length d /\
    forall i x, nth_error d i = Some x ->
      exists row,
        nth_error lists i = Some row /\
        map Some row
        = map (fun m => direct_prediction m x) (oob_models bags models i).
Proof.
  intros Hfit Hal.
  destruct (gather_spec Hfit Hal) as (lists & E & Hlen & Hrows).
  exists lists. split; [| split; assumption].
  unfold _get_averaged_oob_predictions. rewrite E. simpl.
  now rewrite append_loop_map.
Qed.

(** One round of the scoring loop. *)
Lemma score_step_spec self (preds : list (option V)) (t : list V) (n : nat)
    (acc : list V) :
  oob_predictions self = Some preds -> target self = Some t ->
  n < length preds -> n < length t ->
  (~ nan_check_rejects preds t n /\
   score_step self acc n = Ok (acc ++ contribution preds t n)) \/
  (nan_check_rejects preds t n /\ score_step self acc n = Raise TypeError).
Proof.
  intros Hp Ht Hnp Hnt. unfold score_step, contribution, nan_check_rejects.
  rewrite Hp, Ht. cbn [attr bind].
  destruct (@index_lt _ preds n Hnp) as (pr & -> & ->). cbn [bind].
  destruct (@index_lt _ t n Hnt) as (tn & -> & Et).
  destruct pr as [p|].
  - rewrite Et. cbn [bind]. unfold np_isnan_any.
    destruct (isnan_any (vsquare (vsub p tn))) as [[|]|] eqn:Enan; cbn [bind negb].
    + left. split; [| now rewrite app_nil_r].
      intros (q & ti & [= <-] & [= <-] & H). congruence.
    + left. split; [| reflexivity].
      intros (q & ti & [= <-] & [= <-] & H). congruence.
    + right. split; [| reflexivity]. now exists p, tn.
  - left. split; [| now rewrite app_nil_r].
    intros (q & ti & [=] & _).
Qed.

(** The scoring loop collects the contributions of the examples in order,
    unless [np.isnan] rejects one of the squared errors. *)
Lemma score_loop self (preds : list (option V)) (t : list V) (n : nat)
    (acc : list V) :
  oob_predictions self = Some preds -> target self = Some t ->
  n <= length preds -> n <= length t ->
  ((forall i, i < n -> ~ nan_check_rejects preds t i) /\
   foldM (score_step self) (seq 0 n) acc
   = Ok (acc ++ flat_map (contribution preds t) (seq 0 n))) \/
  ((exists i, i < n /\ nan_check_rejects preds t i) /\
   foldM (score_step self) (seq 0 n) acc = Raise TypeError).
Proof.
  intros Hp Ht. induction n as [|n IH]; intros Hnp Hnt.
  - left. split; [intros i Hi; lia|]. simpl. now rewrite app_nil_r.
  - rewrite seq_S, foldM_app. change (0 + n) with n.
    destruct IH as [[Hacc ->]|[(j & Hj & Hrej) ->]]; try lia.
    2:{ right. split; [| reflexivity]. exists j. split; [lia | exact Hrej]. }
    cbn [bind foldM].
    destruct (@score_step_spec self preds t n
                (acc ++ flat_map (contribution preds t) (seq 0 n)) Hp Ht)
      as [[Hn ->]|[Hn ->]]; try lia; cbn [bind].
    + left. split.
      * intros i Hi. destruct (Nat.eq_dec i n) as [->|Hne]; [exact Hn|].
        apply Hacc. lia.
      * rewrite flat_map_app. cbn [flat_map]. now rewrite app_nil_r, app_assoc.
    + right. split; [| reflexivity]. exists n. split; [lia | exact Hn].
Qed.

(** The score of a fitted ensemble: the mean of the contributions, or
    [TypeError] when [np.isnan] rejects a squared error. *)
Lemma score_spec self bags models (d : list X) (t : list V) :
  fitted self bags models d t -> predict_aligned ->
  exists lists,
    let preds := averaged_predictions (num_bags self) lists in
    let self' :=
      set_oob_predictions (set_list_of_predictions_lists self lists) preds in
    _get_averaged_oob_predictions self = Ok self' /\
    length lists = length d /\
    (forall i x, nth_error d i = Some x ->
       exists row,
         nth_error lists i = Some row /\
         map Some row
         = map (fun m => direct_prediction m x) (oob_models bags models i)) /\
    ((forall i, i < length d -> ~ nan_check_rejects preds t i) ->
     OOB_score self
     = Ok (np_mean (flat_map (contribution preds t) (seq 0 (length d))), self')) /\
    ((exists i, i < length d /\ nan_check_rejects preds t i) ->
     OOB_score self = Raise TypeError) /\
    ((forall i, i < length d -> ~ nan_check_rejects preds t i) \/
     (exists i, i < length d /\ nan_check_rejects preds t i)).
Proof.
  intros Hfit Hal.
  destruct (averaged_spec Hfit Hal) as (lists & E & Hlen & Hrows).
  exists lists. split; [exact E|]. split; [exact Hlen|]. split; [exact Hrows|].
  destruct Hfit as (_ & _ & Hd & Ht & _ & _ & _ & Hlt).
  unfold OOB_score. rewrite E. cbn [bind]. simpl data. rewrite Hd. cbn [attr bind].
  match goal with |- context [foldM (score_step ?s) ?l ?a] =>
    destruct (@score_loop s (averaged_predictions (num_bags self) lists) t
                (length d) [] eq_refl Ht) as [[Hacc ->]|[Hrej ->]]
  end; try (unfold averaged_predictions; rewrite ?length_map; lia).
  - split; [reflexivity|]. split; [| now left].
    intros (i & Hi & Hr). now destruct (Hacc i Hi).
  - split; [| split; [reflexivity | now right]].
    intros Hacc. destruct Hrej as (i & Hi & Hr). now destruct (Hacc i Hi).
Qed.

(** With num_bags = 1 every present averaged prediction is the mean of an
    empty list, whose squared error [np.isnan] accepts. *)
Lemma single_bag_accepts (lists : list (list V)) (t : list V) (i : nat) :
  nan_squared_error -> ~ nan_check_rejects (averaged_predictions 1 lists) t i.
Proof.
  intros Hnan (p & ti & Hp & _ & Hnone). unfold averaged_predictions in Hp.
  rewrite nth_error_map in Hp.
  destruct (nth_error lists i) as [row|]; [| discriminate]. simpl in Hp.
  unfold averaged_prediction in Hp.
  destruct (Z.ltb_spec (Z.of_nat (length row)) 1); [| discriminate].
  destruct row; [| simpl in *; lia].
  injection Hp as <-. simpl in Hnone. rewrite (Hnan ti) in Hnone. discriminate.
Qed.
End ScoreClaims.

(** ** The concrete interfaces meet their contracts *)


Lemma float_nan_squared_error : @nan_squared_error float float_Numeric.
Proof.
  intros t. unfold mean_of_empty. simpl. unfold PrimFloat.is_nan.
  rewrite eqb_spec, mul_spec, sub_spec. reflexivity.
Qed.

Lemma float_isnan_total : @isnan_total float float_Numeric.
Proof. intros v. discriminate. Qed.

Lemma mean_stub_aligned (X : Type) : @predict_aligned X float float (mean_stub X).
Proof. intros m features. simpl. apply length_map. Qed.

Lemma scripted_in_range : @randint_in_range (list nat) scripted.
Proof.
  intros a [|r script] Ha; simpl; [exact Ha|].
  apply Nat.mod_upper_bound. lia.
Qed.

(** ** Claims on the averaged out-of-bag predictions *)

Section AveragedClaims.
Context {X V M : Type}.
Context {NV : Numeric V} {BM : BaseModel X V M}.
Implicit Types self : SimplifiedBaggingRegressor X V M.

(** C2, amended. In the averaging step on a fitted ensemble, every training
    example whose prediction list has at least one entry and strictly fewer
    than num_bags entries has a present averaged prediction (not [None]):
    the mean of its prediction list, as numpy forms it for a row of the
    array the lists were stored in. *)
Theorem averaged_present_when_partial self bags models (d : list X)
    (t : list V) :
  fitted self bags models d t -> predict_aligned ->
  exists lists preds self',
    _get_averaged_oob_predictions self = Ok self' /\
    list_of_predictions_lists self' = Some lists /\
    oob_predictions self' = Some preds /\
    length lists = length d /\
    length preds = length d /\
    forall i row, nth_error lists i = Some row ->
      0 < length row -> (Z.of_nat (length row) < num_bags self)%Z ->
      nth_error preds i
      = Some (Some (np_mean_in (object_array_layout lists) row)).
Proof.
  intros Hfit Hal.
  destruct (averaged_spec Hfit Hal) as (lists & E & Hlen & _).
  eexists lists, _, _. split; [exact E|]. simpl.
  split; [reflexivity|]. split; [reflexivity|]. split; [exact Hlen|].
  unfold averaged_predictions. split; [now rewrite length_map|].
  intros i row Hrow Hpos Hlt. rewrite nth_error_map, Hrow. simpl.
  unfold averaged_prediction.
  destruct (Z.ltb_spec (Z.of_nat (length row)) (num_bags self));
    [reflexivity | lia].
Qed.
End AveragedClaims.

(** C1, on the run [three_examples] (two bags, [0,0,1] and [0,0,0]).
    Example 2 is in neither bag: its prediction list has two entries and
    its averaged prediction is absent. Example 0 is in both bags: its
    prediction list is empty and its averaged prediction is not absent but
    the (NaN) mean of the empty list. Only example 1 gets the mean of a
    non-empty list. *)
Theorem averaged_on_three_examples :
  exists self' p1 p2 q2,
    (self <- three_examples ;; _get_averaged_oob_predictions self) = Ok self' /\
    num_bags self' = 2%Z /\
    indices_list self' = Some [[0; 0; 1]; [0; 0; 0]] /\
    list_of_predictions_lists self' = Some [[]; [p1]; [p2; q2]] /\
    oob_predictions self'
    = Some [Some mean_of_empty; Some (np_mean [p1]); None] /\
    PrimFloat.is_nan mean_of_empty = true.
Proof.
  eexists _, _, _, _. split; [vm_compute; reflexivity|].
  repeat split; reflexivity.
Qed.

(** C2 as the specification words it fails on the same run: example 1 has a
    prediction list strictly shorter than num_bags, and its averaged
    prediction is present. *)
Lemma averaged_absent_counterexample :
  exists self' lists preds,
    (self <- three_examples ;; _get_averaged_oob_predictions self) = Ok self' /\
    list_of_predictions_lists self' = Some lists /\
    oob_predictions self' = Some preds /\
    ~ (forall i row p,
         nth_error lists i = Some row -> nth_error preds i = Some p ->
         (p = None <-> (Z.of_nat (length row) < num_bags self')%Z)).
Proof.
  eexists _, _, _. split; [vm_compute; reflexivity|].
  split; [reflexivity|]. split; [reflexivity|].
  intros H. specialize (H 1 _ _ eq_refl eq_refl). simpl in H.
  destruct H as [_ H]. discriminate H. lia.
Qed.

(** ** Claims on the out-of-bag score *)

Section OOBClaims.
Context {X V M : Type}.
Context {NV : Numeric V} {BM : BaseModel X V M}.
Implicit Types self : SimplifiedBaggingRegressor X V M.


Lemma flat_map_filter {A B : Type} (f : A -> list B) (keep : A -> bool)
    (xs : list A) :
  (forall x, In x xs -> keep x = false -> f x = []) ->
  flat_map f xs = flat_map f (filter keep xs).
Proof.
  induction xs as [|x xs IH]; intros H; simpl; [reflexivity|].
  rewrite IH by (intros y Hy; apply H; now right).
  destruct (keep x) eqn:E; simpl; [reflexivity|].
  now rewrite (H x (or_introl eq_refl) E).
Qed.

(** C3. With num_bags = 1 a fitted ensemble has one bag and one model.
    Every example outside the bag has exactly one out-of-bag prediction,
    the model's direct prediction on it; every example inside the bag has
    none and adds nothing to the score: the score is the mean of the
    contributions of the examples outside the bag alone. *)
Theorem single_bag_oob self bags models (d : list X) (t : list V) :
  num_bags self = 1%Z ->
  fitted self bags models d t -> predict_aligned -> nan_squared_error ->
  exists bag model lists preds self',
    bags = [bag] /\ models = [model] /\
    OOB_score self
    = Ok (np_mean (flat_map (contribution preds t)
                     (filter (fun i => not_in i bag) (seq 0 (length d)))),
          self') /\
    list_of_predictions_lists self' = Some lists /\
    oob_predictions self' = Some preds /\
    (forall i x, nth_error d i = Some x ->
       if not_in i bag
       then exists p, direct_prediction model x = Some p /\
                      nth_error lists i = Some [p]
       else nth_error lists i = Some [] /\ contribution preds t i = []).
Proof.
  intros HB Hfit Hal Hnan.
  destruct (score_spec Hfit Hal) as (lists & _ & Hlen & Hrows & E & _).
  destruct Hfit as (_ & _ & _ & _ & _ & Hlb & Hlm & Hlt).
  rewrite HB in Hlb, Hlm, E.
  assert (Hacc : forall i, i < length d ->
            ~ nan_check_rejects (averaged_predictions 1 lists) t i)
    by (intros i _; now apply single_bag_accepts).
  specialize (E Hacc).
  destruct bags as [|bag [|? ?]]; try discriminate.
  destruct models as [|model [|? ?]]; try discriminate.
  assert (Hrow : forall i x, nth_error d i = Some x ->
            if not_in i bag
            then exists p, direct_prediction model x = Some p /\
                           nth_error lists i = Some [p]
            else nth_error lists i = Some []).
  { intros i x Hx. destruct (Hrows i x Hx) as (row & Hnth & Hmap).
    unfold oob_models in Hmap. simpl in Hmap.
    destruct (not_in i bag); simpl in Hmap.
    - destruct row as [|p [|? ?]]; try discriminate.
      injection Hmap as Hp. exists p. split; [now symmetry | exact Hnth].
    - destruct row; [exact Hnth | discriminate]. }
  assert (Hin : forall i, i < length d -> not_in i bag = false ->
            contribution (averaged_predictions 1 lists) t i = []).
  { intros i Hi Hbag. destruct (@index_lt _ d i Hi) as (x & Hx & _).
    specialize (Hrow i x Hx). rewrite Hbag in Hrow.
    unfold contribution, averaged_predictions. rewrite nth_error_map, Hrow.
    simpl. destruct (nth_error t i) as [ti|]; [| reflexivity].
    now rewrite (Hnan ti). }
  eexists bag, model, lists, _, _.
  split; [reflexivity|]. split; [reflexivity|]. split.
  - rewrite E. f_equal. f_equal. f_equal. apply flat_map_filter.
    intros i Hi. apply in_seq in Hi. apply Hin. lia.
  - split; [reflexivity|]. split; [reflexivity|].
    intros i x Hx. specialize (Hrow i x Hx).
    destruct (not_in i bag) eqn:Hbag; [exact Hrow|].
    split; [exact Hrow|]. apply Hin; [| exact Hbag].
    apply nth_error_Some. congruence.
Qed.

(** The score does not read the two attributes it overwrites. *)
Lemma OOB_score_frame (B : Z) (o : bool) i (d : option (list X))
    (t : option (list V)) (m : option (list M)) l p l' p' :
  OOB_score (mkRegressor B o i d t m l p)
  = OOB_score (mkRegressor B o i d t m l' p').
Proof.
  unfold OOB_score, _get_averaged_oob_predictions,
    _get_oob_predictions_from_every_model.
  destruct d as [d|]; simpl; [| reflexivity].
  change (oob_bag_step (mkRegressor B o i (Some d) t m l p))
    with (oob_bag_step (mkRegressor B o i (Some d) t m l' p')).
  match goal with |- context [foldM ?f ?xs ?a] =>
    destruct (foldM f xs a) as [lists|e] end; reflexivity.
Qed.

Lemma OOB_score_state self (v : V) self' :
  OOB_score self = Ok (v, self') ->
  exists l' p',
    self' = mkRegressor (num_bags self) (oob self) (indices_list self)
              (data self) (target self) (models_list self) l' p'.
Proof.
  destruct self as [B o i d t m l p].
  unfold OOB_score, _get_averaged_oob_predictions,
    _get_oob_predictions_from_every_model.
  destruct d as [d|]; simpl; [| discriminate].
  match goal with |- context [foldM ?f ?xs ?a] =>
    destruct (foldM f xs a) as [lists|e] end; simpl; [| discriminate].
  match goal with |- context [foldM ?f ?xs ?a] =>
    destruct (foldM f xs a) as [errors|e] end; simpl; [| discriminate].
  intros [= _ <-]. eexists _, _. reflexivity.
Qed.

(** Calling [OOB_score] on the object it has just returned gives the same
    value and the same object. *)
Lemma OOB_score_again self (v : V) self' :
  OOB_score self = Ok (v, self') -> OOB_score self' = Ok (v, self').
Proof.
  intros E. destruct (OOB_score_state self E) as (l' & p' & ->).
  rewrite <- E. destruct self as [B o i d t m l p]. apply OOB_score_frame.
Qed.

(** C9. Whenever [OOB_score] returns a value and the updated object, a
    second call on that object, with nothing in between, returns the same
    value (and leaves the object as it is). On a fitted ensemble whose
    values [np.isnan] accepts, the first call does return. *)
Theorem oob_score_idempotent self :
  (forall (v : V) self',
     OOB_score self = Ok (v, self') -> OOB_score self' = Ok (v, self')) /\
  (forall bags models (d : list X) (t : list V),
     fitted self bags models d t -> predict_aligned -> isnan_total ->
     exists v self',
       OOB_score self = Ok (v, self') /\ OOB_score self' = Ok (v, self')).
Proof.
  split; [intros v self'; apply OOB_score_again|].
  intros bags models d t Hfit Hal Htot.
  destruct (score_spec Hfit Hal) as (lists & _ & _ & _ & E & _).
  eexists _, _. split; [| eapply OOB_score_again]; apply E;
    intros i _ (p & ti & _ & _ & Hnone); exact (Htot _ Hnone).
Qed.
End OOBClaims.

(** ** The dataset kept by fit *)

Section RetainClaims.
Context {X V M G : Type}.
Context {NV : Numeric V} {BM : BaseModel X V M} {RS : RandomSource G}.
Implicit Types self : SimplifiedBaggingRegressor X V M.

(** [fit] reads the [oob] flag only to assign again what it has assigned. *)
Lemma fit_with_oob self (flag : bool) (ctor : unit -> M)
    (d : list X) (t : list V) (g : G) :
  fit (with_oob self flag) ctor d t g
  = ('(self', g') <- fit self ctor d t g ;; Ok (with_oob self' flag, g')).
Proof.
  destruct self as [B o i d0 t0 m l p].
  unfold fit, _generate_splits, with_oob. simpl.
  match goal with |- context [foldM ?f ?xs ?a] =>
    destruct (foldM f xs a) as [[bags g']|e] end; simpl; [| reflexivity].
  destruct (assert (bags_same_length bags) msg_same_length) as [[]|e];
    simpl; [| reflexivity].
  destruct (first_bag_length bags) as [first|e]; simpl; [| reflexivity].
  destruct (assert (first =? length d) msg_len_data) as [[]|e];
    simpl; [| reflexivity].
  match goal with |- context [foldM ?f ?xs ?a] =>
    destruct (foldM f xs a) as [models|e] end; simpl; [| reflexivity].
  destruct o, flag; reflexivity.
Qed.

(** C10. [fit] stores the dataset and the targets whatever the [oob] flag:
    after a [fit] with [oob] false the object holds [data] and [target], the
    out-of-bag gathering and averaging run on it, and [OOB_score] reads its
    attributes without fault: it returns, or raises the [TypeError] of
    [np.isnan], and it returns when [np.isnan] accepts every value. A [fit]
    with [oob] true leaves the very same object, flag apart. *)
Theorem fit_retains_dataset self (ctor : unit -> M)
    (d : list X) (t : list V) (g : G) :
  randint_in_range -> predict_aligned ->
  (0 < num_bags self)%Z -> length t = length d ->
  exists self' g',
    fit (with_oob self false) ctor d t g = Ok (self', g') /\
    oob self' = false /\
    data self' = Some d /\
    target self' = Some t /\
    (exists averaged, _get_averaged_oob_predictions self' = Ok averaged) /\
    ((exists score self'', OOB_score self' = Ok (score, self'')) \/
     OOB_score self' = Raise TypeError) /\
    (isnan_total -> exists score self'', OOB_score self' = Ok (score, self'')) /\
    fit (with_oob self true) ctor d t g = Ok (with_oob self' true, g').
Proof.
  intros Hr Hal HB Ht.
  destruct (fit_fitted (with_oob self false) ctor d t g Hr HB Ht)
    as (self' & g' & bags & models & E & Hfit & _ & Hoob).
  destruct (score_spec Hfit Hal)
    as (lists & Eavg & _ & _ & Hok & Hraise & Hcases).
  exists self', g'. split; [exact E|]. split; [exact Hoob|].
  split; [apply Hfit|]. split; [apply Hfit|].
  split; [eexists; exact Eavg|]. split; [| split].
  - destruct Hcases as [Hacc|Hrej].
    + left. eexists _, _. exact (Hok Hacc).
    + right. exact (Hraise Hrej).
  - intros Htot. eexists _, _. apply Hok.
    intros i _ (p & ti & _ & _ & Hnone). exact (Htot _ Hnone).
  - rewrite fit_with_oob in E. rewrite fit_with_oob.
    destruct (fit self ctor d t g) as [[s g0]|e]; simpl in *; [| discriminate].
    injection E as <- <-. reflexivity.
Qed.
End RetainClaims.

(** * The properties at work on the example runs *)

Lemma three_examples_fitted : three_examples = Ok example_fitted.
Proof. vm_compute. reflexivity. Qed.

Lemma single_bag_example_fit :
  fit (__init__ 1%Z true) (fun _ => 0%float) example_data example_target [0; 0; 1]
  = Ok (single_bag_example, []).
Proof. vm_compute. reflexivity. Qed.

Lemma example_is_fitted :
  fitted example_fitted example_bags example_models example_data example_target.
Proof. unfold fitted. simpl. repeat split; lia. Qed.

Lemma single_bag_example_is_fitted :
  fitted single_bag_example [[0; 0; 1]]
    [np_mean [1%float; 1%float; 2%float]] example_data example_target.
Proof. unfold fitted. simpl. repeat split; lia. Qed.

Lemma sampler_bags_witness :
  exists bags g',
    _generate_splits example_fitted example_data example_script
    = Ok (set_indices_list example_fitted bags, g') /\
    Z.of_nat (length bags) = 2%Z /\
    Forall (fun bag => length bag = 3 /\ Forall (fun i => i < 3) bag) bags.
Proof.
  apply (sampler_bags example_fitted example_data example_script).
  - exact scripted_in_range.
  - simpl. lia.
  - simpl. lia.
Defined.

Lemma fit_assertions_hold_witness :
  (exists bags g',
     _generate_splits (example_new false) example_data example_script
     = Ok (set_indices_list (example_new false) bags, g') /\
     bags_same_length bags = true /\
     first_bag_length bags = Ok 3) /\
  (forall msg,
     fit (example_new false) (fun _ => 0%float) example_data example_target
       example_script <> Raise (AssertionError msg)).
Proof.
  apply (fit_assertions_hold (example_new false) (fun _ => 0%float)
           example_data example_target example_script).
  simpl. lia.
Defined.

Lemma predict_mean_witness :
  exists out,
    predict example_fitted [20; 21] = Ok (NdArray out) /\
    length out = 2 /\
    Z.of_nat (length example_models) = 2%Z /\
    forall i, i < 2 ->
      nth_error out i
      = Some (np_mean_in (Stack 2)
                (map (fun m => nth i (model_predict m [20; 21]) vzero)
                     example_models)).
Proof.
  apply (predict_mean [20; 21] example_is_fitted (@mean_stub_aligned nat)).
Defined.

Lemma oob_gathering_witness :
  exists lists,
    _get_oob_predictions_from_every_model example_fitted
    = Ok (set_list_of_predictions_lists example_fitted lists) /\
    length lists = 3 /\
    forall i x, nth_error example_data i = Some x ->
      exists row,
        nth_error lists i = Some row /\
        map Some row
        = map (fun m => direct_prediction m x)
              (map snd (filter (fun bm => negb (existsb (Nat.eqb i) (fst bm)))
                               (combine example_bags example_models))) /\
        length row
        = length (filter (fun bag => negb (existsb (Nat.eqb i) bag))
                         example_bags).
Proof.
  apply (oob_gathering example_is_fitted (@mean_stub_aligned nat)).
Defined.

Lemma averaged_present_when_partial_witness :
  exists lists preds self',
    _get_averaged_oob_predictions example_fitted = Ok self' /\
    list_of_predictions_lists self' = Some lists /\
    oob_predictions self' = Some preds /\
    length lists = 3 /\
    length preds = 3 /\
    forall i row, nth_error lists i = Some row ->
      0 < length row -> (Z.of_nat (length row) < 2)%Z ->
      nth_error preds i
      = Some (Some (np_mean_in (object_array_layout lists) row)).
Proof.
  apply (averaged_present_when_partial example_is_fitted
           (@mean_stub_aligned nat)).
Defined.


Lemma single_bag_oob_witness :
  exists bag model lists preds self',
    [[0; 0; 1]] = [bag] /\
    [np_mean [1%float; 1%float; 2%float]] = [model] /\
    OOB_score single_bag_example
    = Ok (np_mean (flat_map (contribution preds example_target)
                     (filter (fun i => not_in i bag) (seq 0 3))),
          self') /\
    list_of_predictions_lists self' = Some lists /\
    oob_predictions self' = Some preds /\
    (forall i x, nth_error example_data i = Some x ->
       if not_in i bag
       then exists p, direct_prediction model x = Some p /\
                      nth_error lists i = Some [p]
       else nth_error lists i = Some [] /\
            contribution preds example_target i = []).
Proof.
  apply (single_bag_oob (self := single_bag_example) eq_refl
           single_bag_example_is_fitted (@mean_stub_aligned nat)
           float_nan_squared_error).
Defined.

Lemma oob_score_idempotent_witness :
  exists v self',
    OOB_score example_fitted = Ok (v, self') /\ OOB_score self' = Ok (v, self').
Proof.
  apply (proj2 (oob_score_idempotent example_fitted) _ _ _ _
           example_is_fitted (@mean_stub_aligned nat) float_isnan_total).
Defined.

Lemma fit_retains_dataset_witness :
  exists self' g',
    fit (example_new false) (fun _ => 0%float) example_data example_target
      example_script = Ok (self', g') /\
    oob self' = false /\
    data self' = Some example_data /\
    target self' = Some example_target /\
    (exists score self'', OOB_score self' = Ok (score, self'')) /\
    fit (example_new true) (fun _ => 0%float) example_data example_target
      example_script = Ok (with_oob self' true, g').
Proof.
  destruct (fit_retains_dataset (example_new true) (fun _ => 0%float)
              example_data example_target example_script
              scripted_in_range (@mean_stub_aligned nat))
    as (self' & g' & Efit & Hoob & Hdata & Htarget & _ & _ & Hscore & Etrue).
  - simpl. lia.
  - reflexivity.
  - exists self', g'. split; [exact Efit|]. split; [exact Hoob|].
    split; [exact Hdata|]. split; [exact Htarget|].
    split; [exact (Hscore float_isnan_total) | exact Etrue].
Defined.

(** * Further properties of the sampler and of fit *)

Section SamplerMore.
Context {X V M G : Type}.
Context {NV : Numeric V} {BM : BaseModel X V M} {RS : RandomSource G}.
Implicit Types self : SimplifiedBaggingRegressor X V M.

Lemma draws_app (a n m : nat) (g : G) :
  draws a (n + m) g
  = (fst (draws a n g) ++ fst (draws a m (snd (draws a n g))),
     snd (draws a m (snd (draws a n g)))).
Proof.
  revert g. induction n as [|n IH]; intros g; simpl.
  - now destruct (draws a m g).
  - destruct (randint a g) as [i g1]. rewrite IH.
    destruct (draws a n g1) as [l1 g2]. reflexivity.
Qed.

(** The sampling loop cuts the next draws of the generator into bags. *)
Lemma sampling_loop_draws (n : nat) (todo : list nat) (acc : list (list nat))
    (g : G) :
  exists new,
    foldM (fun '(acc, g0) (_ : nat) =>
             '(bag_indices, g1) <- np_random_choice n n g0 ;;
             Ok (acc ++ [bag_indices], g1)) todo (acc, g)
    = Ok (acc ++ new, snd (draws n (length todo * n) g)) /\
    concat new = fst (draws n (length todo * n) g).
Proof.
  revert acc g. induction todo as [|b todo IH]; intros acc g; simpl.
  - exists []. now rewrite app_nil_r.
  - rewrite np_random_choice_Ok. simpl. rewrite draws_app.
    destruct (draws n n g) as [bag g1]. simpl.
    destruct (IH (acc ++ [bag]) g1) as (new & -> & Hcat).
    exists (bag :: new). rewrite <- app_assoc. simpl.
    split; [reflexivity | now rewrite Hcat].
Qed.

(** X4. The sampler takes exactly the next num_bags * N draws of the
    generator, in order: the bags laid end to end are those draws, and the
    generator is left where the last draw left it. *)
Theorem sampler_draw_order self (d : list X) (g : G) :
  exists bags,
    _generate_splits self d g
    = Ok (set_indices_list self bags,
          snd (draws (length d) (Z.to_nat (num_bags self) * length d) g)) /\
    concat bags
    = fst (draws (length d) (Z.to_nat (num_bags self) * length d) g).
Proof.
  unfold _generate_splits.
  destruct (sampling_loop_draws (length d) (range (num_bags self)) [] g)
    as (new & E & Hcat).
  unfold range in *. rewrite length_seq in *.
  rewrite_loop E. simpl. exists new. split; [reflexivity | exact Hcat].
Qed.

(** Without a bag to draw, [fit] stops at its first assertion. *)
Lemma fit_nonpositive self (ctor : unit -> M) (d : list X) (t : list V) (g : G) :
  (num_bags self <= 0)%Z ->
  fit self ctor d t g = Raise (AssertionError msg_same_length).
Proof.
  intros HB. unfold fit, _generate_splits, range. simpl.
  replace (Z.to_nat (num_bags self)) with 0 by lia. reflexivity.
Qed.

(** X1. With num_bags <= 0, [fit] raises [AssertionError] with the message
    of the first check, whatever the data, the targets and the model: the
    set of bag lengths is empty, not a singleton. *)
Theorem fit_without_bags self (ctor : unit -> M) (d : list X) (t : list V)
    (g : G) :
  (num_bags self <= 0)%Z ->
  fit self ctor d t g
  = Raise (AssertionError "All bags should be of the same length!").
Proof. intros HB. now apply fit_nonpositive. Qed.

(** X2. The only exceptions [fit] can raise are [IndexError] (from indexing
    the data or the targets by a bag) and the first [AssertionError], the
    latter only with num_bags <= 0. The second assertion never fails, and
    the sampler never refuses. *)
Theorem fit_errors self (ctor : unit -> M) (d : list X) (t : list V) (g : G)
    (e : exn) :
  fit self ctor d t g = Raise e ->
  e = IndexError \/
  (e = AssertionError msg_same_length /\ (num_bags self <= 0)%Z).
Proof.
  destruct (Z_lt_le_dec 0 (num_bags self)) as [HB|HB].
  2:{ rewrite (fit_nonpositive self ctor d t g HB). intros [= <-]. now right. }
  unfold fit.
  destruct (generate_splits_spec (set_target (set_data self d) t) d g)
    as (bags & g' & -> & Hn & Hl & _).
  destruct (@bag_checks_pass (length d) bags) as [Hsame Hfirst];
    [destruct bags; [simpl in Hn; lia | discriminate] | exact Hl |].
  simpl. rewrite Hsame. simpl. rewrite Hfirst. simpl.
  rewrite Nat.eqb_refl. simpl.
  match goal with |- context [foldM ?f ?l ?a] =>
    destruct (foldM f l a) as [models|e'] eqn:E end; simpl.
  - destruct (oob self); discriminate.
  - intros [= <-]. left. now apply training_loop_Raise in E.
Qed.
End SamplerMore.

Section FitMore.
Context {X V M G : Type}.
Context {NV : Numeric V} {BM : BaseModel X V M} {RS : RandomSource G}.
Implicit Types self : SimplifiedBaggingRegressor X V M.

Lemma take_spec {A : Type} (xs : list A) (indices : list nat) (ys : list A) :
  take xs indices = Ok ys ->
  Forall2 (fun i y => nth_error xs i = Some y) indices ys.
Proof.
  revert ys. induction indices as [|i rest IH]; intros ys; simpl.
  - intros [= <-]. constructor.
  - unfold index. destruct (nth_error xs i) as [x|] eqn:Ex; simpl; [| discriminate].
    destruct (take xs rest) as [ys'|e]; simpl; [| discriminate].
    intros [= <-]. constructor; [exact Ex | now apply IH].
Qed.

(** What the training loop has appended after the first [n] bags. *)
Lemma training_loop_models (ctor : unit -> M) (bags : list (list nat))
    (d : list X) (t : list V) (n : nat) (res : list M) :
  n <= length bags ->
  foldM (fun acc bag =>
           let model := ctor tt in
           bag_indices <- index bags bag ;;
           data_bag <- take d bag_indices ;;
           bag_indices' <- index bags bag ;;
           target_bag <- take t bag_indices' ;;
           Ok (acc ++ [model_fit model data_bag target_bag])) (seq 0 n) []
  = Ok res ->
  Forall2 (fun bag m =>
             exists db tb,
               take d bag = Ok db /\ take t bag = Ok tb /\
               m = model_fit (ctor tt) db tb)
          (firstn n bags) res.
Proof.
  revert res. induction n as [|n IH]; intros res Hn.
  - simpl. intros [= <-]. constructor.
  - destruct (@index_lt _ bags n) as (bag & Hbag & Ebag); [lia|].
    rewrite (firstn_snoc _ _ Hbag), seq_S, foldM_app.
    match goal with |- context [foldM ?f (seq 0 n) ?a] =>
      destruct (foldM f (seq 0 n) a) as [r1|e] eqn:E end; simpl; [| discriminate].
    specialize (IH r1 ltac:(lia) eq_refl).
    rewrite Ebag. simpl.
    destruct (take d bag) as [db|e] eqn:Ed; simpl; [| discriminate].
    destruct (take t bag) as [tb|e] eqn:Et; simpl; [| discriminate].
    intros [= <-].
    apply Forall2_app; [exact IH|]. constructor; [| constructor].
    exists db, tb. repeat split; assumption.
Qed.

(** X3. When [fit] returns, the ensemble holds num_bags bags and as many
    models, and model b is a fresh model ([model_constructor()]) fitted on
    the examples and the targets found at the indices of bag b, in the
    order of the bag and with its repetitions. *)
Theorem fit_trains_on_bags self (ctor : unit -> M) (d : list X) (t : list V)
    (g : G) self' (g' : G) :
  fit self ctor d t g = Ok (self', g') ->
  exists bags models,
    indices_list self' = Some bags /\
    models_list self' = Some models /\
    Z.of_nat (length bags) = num_bags self' /\
    Forall2 (fun bag m =>
               exists data_bag target_bag,
                 Forall2 (fun i x => nth_error d i = Some x) bag data_bag /\
                 Forall2 (fun i y => nth_error t i = Some y) bag target_bag /\
                 m = model_fit (ctor tt) data_bag target_bag)
            bags models.
Proof.
  unfold fit.
  destruct (generate_splits_spec (set_target (set_data self d) t) d g)
    as (bags & g1 & -> & Hn & _). simpl in Hn |- *.
  unfold assert at 1. destruct (bags_same_length bags) eqn:Hs; simpl;
    [| discriminate].
  destruct (first_bag_length bags) as [first|e]; simpl; [| discriminate].
  unfold assert. destruct (first =? length d); simpl; [| discriminate].
  match goal with |- context [foldM ?f ?l ?a] =>
    destruct (foldM f l a) as [models|e] eqn:E end; simpl; [| discriminate].
  intros H. exists bags, models.
  assert (Hself : indices_list self' = Some bags /\
                  models_list self' = Some models /\
                  num_bags self' = num_bags self).
  { destruct (oob self); injection H as <- _; repeat split. }
  destruct Hself as (Hi & Hm & HB). split; [exact Hi|]. split; [exact Hm|].
  split.
  - rewrite HB. assert (0 < length bags); [| lia].
    destruct bags; [discriminate Hs | simpl; lia].
  - unfold range in E. rewrite <- Hn in E.
    apply training_loop_models in E; [| lia].
    rewrite firstn_all in E.
    eapply Forall2_impl; [| exact E].
    intros bag m (db & tb & Hd & Ht & ->).
    exists db, tb. repeat split; [now apply take_spec | now apply take_spec].
Qed.

(** X10. [fit] assigns neither [list_of_predictions_lists] nor
    [oob_predictions]: on an object that was scored before, they still hold
    the results of the previous fit when [fit] returns; [num_bags] and
    [oob] are left as they were. *)
Theorem fit_keeps_oob_attributes self (ctor : unit -> M) (d : list X)
    (t : list V) (g : G) self' (g' : G) :
  fit self ctor d t g = Ok (self', g') ->
  list_of_predictions_lists self' = list_of_predictions_lists self /\
  oob_predictions self' = oob_predictions self /\
  num_bags self' = num_bags self /\
  oob self' = oob self.
Proof.
  destruct self as [B o i d0 t0 m l p].
  unfold fit, _generate_splits. simpl.
  match goal with |- context [foldM ?f ?xs ?a] =>
    destruct (foldM f xs a) as [[bags g1]|e] end; simpl; [| discriminate].
  destruct (assert (bags_same_length bags) msg_same_length) as [[]|e];
    simpl; [| discriminate].
  destruct (first_bag_length bags) as [first|e]; simpl; [| discriminate].
  destruct (assert (first =? length d) msg_len_data) as [[]|e];
    simpl; [| discriminate].
  match goal with |- context [foldM ?f ?xs ?a] =>
    destruct (foldM f xs a) as [models|e] end; simpl; [| discriminate].
  destruct o; intros [= <- _]; repeat split.
Qed.
Lemma take_Ok_bound {A : Type} (xs : list A) (indices : list nat) :
  Forall (fun i => i < length xs) indices -> exists ys, take xs indices = Ok ys.
Proof.
  intros H. destruct (take_Ok xs H) as (ys & E & _). now exists ys.
Qed.

(** The training loop succeeds as soon as every index of every bag is in
    range for the data and for the targets. *)
Lemma training_loop_Ok_bounds (ctor : unit -> M) (bags : list (list nat))
    (d : list X) (t : list V) (todo : list nat) (acc : list M) :
  Forall (Forall (fun i => i < length d /\ i < length t)) bags ->
  Forall (fun b => b < length bags) todo ->
  exists new,
    foldM (fun acc bag =>
             let model := ctor tt in
             bag_indices <- index bags bag ;;
             data_bag <- take d bag_indices ;;
             bag_indices' <- index bags bag ;;
             target_bag <- take t bag_indices' ;;
             Ok (acc ++ [model_fit model data_bag target_bag])) todo acc
    = Ok (acc ++ new).
Proof.
  intros Hbags Htodo. revert acc.
  induction Htodo as [|b todo Hb _ IH]; intros acc; simpl.
  - exists []. now rewrite app_nil_r.
  - destruct (index_lt bags Hb) as (bag & Hnth & ->). simpl.
    assert (Hbag : Forall (fun i => i < length d /\ i < length t) bag).
    { rewrite Forall_forall in Hbags. apply Hbags. eapply nth_error_In; eauto. }
    destruct (@take_Ok_bound _ d bag) as (db & ->).
    { eapply Forall_impl; [| exact Hbag]. now intros i [? _]. }
    destruct (@take_Ok_bound _ t bag) as (tb & ->).
    { eapply Forall_impl; [| exact Hbag]. now intros i [_ ?]. }
    simpl. destruct (IH (acc ++ [model_fit (ctor tt) db tb])) as (new & E).
    exists (model_fit (ctor tt) db tb :: new).
    etransitivity; [exact E|]. now rewrite <- app_assoc.
Qed.

(** [fit] returns as soon as there is a bag to draw and the bags drawn stay
    in range for the data and for the targets. *)
Lemma fit_Ok_bounds self (ctor : unit -> M) (d : list X) (t : list V) (g : G) :
  (0 < num_bags self)%Z ->
  (forall bags g',
     _generate_splits (set_target (set_data self d) t) d g
     = Ok (set_indices_list (set_target (set_data self d) t) bags, g') ->
     Forall (Forall (fun i => i < length d /\ i < length t)) bags) ->
  exists bags models g',
    _generate_splits (set_target (set_data self d) t) d g
    = Ok (set_indices_list (set_target (set_data self d) t) bags, g') /\
    fit self ctor d t g
    = Ok (mkRegressor (num_bags self) (oob self) (Some bags) (Some d) (Some t)
            (Some models) (list_of_predictions_lists self)
            (oob_predictions self), g').
Proof.
  intros HB Hrange. unfold fit.
  destruct (generate_splits_spec (set_target (set_data self d) t) d g)
    as (bags & g' & E & Hn & Hl & _).
  specialize (Hrange bags g' E). rewrite E. simpl in Hn |- *.
  destruct (@bag_checks_pass (length d) bags) as [Hsame Hfirst];
    [destruct bags; [simpl in Hn; lia | discriminate] | exact Hl |].
  rewrite Hsame. simpl. rewrite Hfirst. simpl. rewrite Nat.eqb_refl. simpl.
  destruct (@training_loop_Ok_bounds ctor bags d t (range (num_bags self)) []
              Hrange) as (models & Eloop).
  { unfold range. rewrite Forall_forall. intros b Hin. apply in_seq in Hin. lia. }
  rewrite_loop Eloop. simpl. exists bags, models, g'.
  split; [reflexivity|].
  clear. destruct self as [B [|] i0 d0 t0 m0 l0 p0]; reflexivity.
Qed.

(** X11. With at least one bag to draw, a generator that keeps its range
    and no fewer targets than examples, [fit] returns normally: targets
    beyond the last example are accepted and kept in [self.target], though
    no bag ever points at them. *)
Theorem fit_surplus_targets self (ctor : unit -> M) (d : list X) (t : list V)
    (g : G) :
  randint_in_range -> (0 < num_bags self)%Z -> length d <= length t ->
  exists self' g' bags,
    fit self ctor d t g = Ok (self', g') /\
    data self' = Some d /\
    target self' = Some t /\
    indices_list self' = Some bags /\
    Forall (Forall (fun i => i < length d)) bags.
Proof.
  intros Hr HB Hlen.
  assert (Hrange : forall bags g',
            _generate_splits (set_target (set_data self d) t) d g
            = Ok (set_indices_list (set_target (set_data self d) t) bags, g') ->
            Forall (Forall (fun i => i < length d)) bags).
  { intros bags g' E.
    destruct (generate_splits_spec (set_target (set_data self d) t) d g)
      as (bags0 & g0 & E0 & _ & Hl & Hb).
    rewrite E0 in E. injection E as <- <-.
    destruct (Nat.eq_dec (length d) 0) as [Hz|Hnz].
    - eapply Forall_impl; [| exact Hl]. intros bag Hbag. rewrite Hz in Hbag.
      destruct bag; [constructor | discriminate].
    - eapply Forall_impl; [| apply Hb; [exact Hr | lia]]. now intros bag [_ ?]. }
  destruct (@fit_Ok_bounds self ctor d t g HB) as (bags & models & g' & Es & E).
  { intros bags g' Es. eapply Forall_impl; [| exact (Hrange bags g' Es)].
    intros bag Hbag. eapply Forall_impl; [| exact Hbag].
    intros i Hi. simpl in Hi. lia. }
  eexists _, g', bags. split; [exact E|]. simpl.
  repeat split. exact (Hrange bags g' Es).
Qed.

(** X5. On the empty dataset, with at least one bag to draw, [fit] returns
    normally without drawing from the generator; every bag is empty, and
    [OOB_score] on the fitted object then returns the mean of no squared
    error at all. *)
Theorem fit_empty_dataset self (ctor : unit -> M) (g : G) :
  (0 < num_bags self)%Z ->
  exists self',
    fit self ctor [] [] g = Ok (self', g) /\
    indices_list self' = Some (repeat [] (Z.to_nat (num_bags self))) /\
    exists self'', OOB_score self' = Ok (mean_of_empty, self'').
Proof.
  intros HB.
  assert (Hsplit : forall bags g',
            _generate_splits (set_target (set_data self []) []) (@nil X) g
            = Ok (set_indices_list (set_target (set_data self []) []) bags, g') ->
            bags = repeat [] (Z.to_nat (num_bags self)) /\ g' = g).
  { intros bags g'. unfold _generate_splits. simpl.
    destruct (sampling_loop_draws 0 (range (num_bags self)) [] g)
      as (new & E & Hcat).
    rewrite_loop E. simpl. rewrite Nat.mul_0_r in *. simpl in Hcat |- *.
    intros [= <- <-]. split; [| reflexivity].
    destruct (generate_splits_spec (set_target (set_data self []) []) (@nil X) g)
      as (bags0 & g0 & E0 & Hn & Hl & _).
    unfold _generate_splits in E0. simpl in E0. revert E0.
    rewrite_loop E. simpl. intros [= <- _]. simpl in Hn, Hl.
    rewrite <- Hn. clear -Hl. induction Hl as [|bag bags Hbag _ IH]; simpl.
    - reflexivity.
    - destruct bag; [| discriminate]. now rewrite <- IH. }
  destruct (@fit_Ok_bounds self ctor [] [] g HB) as (bags & models & g' & Es & E).
  { intros bags g' Es. destruct (Hsplit bags g' Es) as [-> _].
    apply Forall_forall. intros bag Hin. apply repeat_spec in Hin. subst bag.
    constructor. }
  destruct (Hsplit bags g' Es) as [-> ->].
  eexists. split; [exact E|]. split; [reflexivity|].
  eexists. reflexivity.
Qed.
End FitMore.

(** * Further properties of the out-of-bag score *)

Section OOBMore.
Context {X V M : Type}.
Context {NV : Numeric V} {BM : BaseModel X V M}.
Implicit Types self : SimplifiedBaggingRegressor X V M.

Lemma not_in_true (i : nat) (bag : list nat) :
  not_in i bag = true <-> ~ In i bag.
Proof.
  unfold not_in. rewrite negb_true_iff. split.
  - intros H Hin. assert (existsb (Nat.eqb i) bag = true); [| congruence].
    apply existsb_exists. exists i. split; [exact Hin | apply Nat.eqb_refl].
  - intros H. destruct (existsb (Nat.eqb i) bag) eqn:E; [| reflexivity].
    apply existsb_exists in E. destruct E as (j & Hj & Heq).
    apply Nat.eqb_eq in Heq. subst j. contradiction.
Qed.

Lemma not_in_false (i : nat) (bag : list nat) :
  not_in i bag = false <-> In i bag.
Proof.
  destruct (not_in i bag) eqn:E.
  - apply not_in_true in E. split; [discriminate | contradiction].
  - split; [intros _ | reflexivity].
    destruct (in_dec Nat.eq_dec i bag) as [Hin|Hout]; [exact Hin|].
    apply not_in_true in Hout. congruence.
Qed.

Lemma filter_length_full {A : Type} (f : A -> bool) (l : list A) :
  length (filter f l) = length l <-> (forall x, In x l -> f x = true).
Proof.
  induction l as [|a l IH]; simpl.
  - split; [intros _ x [] | reflexivity].
  - pose proof (filter_length_le f l) as Hle. destruct (f a) eqn:E; simpl.
    + split.
      * intros [= H] x [<-|Hx]; [exact E | now apply IH].
      * intros H. f_equal. apply IH. intros x Hx. apply H. now right.
    + split; [lia|]. intros H. rewrite (H a (or_introl eq_refl)) in E.
      discriminate.
Qed.

Lemma filter_length_pos {A : Type} (f : A -> bool) (l : list A) :
  0 < length (filter f l) -> exists x, In x l /\ f x = true.
Proof.
  destruct (filter f l) as [|x rest] eqn:E; simpl; [lia|]. intros _.
  exists x. apply filter_In. rewrite E. now left.
Qed.

Lemma filter_length_lt {A : Type} (f : A -> bool) (l : list A) :
  length (filter f l) < length l -> exists x, In x l /\ f x = false.
Proof.
  induction l as [|a l IH]; simpl; [lia|].
  destruct (f a) eqn:E; simpl; intros H.
  - destruct IH as (x & Hx & Hf); [lia|]. exists x. split; [now right | exact Hf].
  - exists a. split; [now left | exact E].
Qed.

Lemma oob_models_length (bags : list (list nat)) (models : list M) (i : nat) :
  length bags = length models ->
  length (oob_models bags models i) = length (filter (not_in i) bags).
Proof.
  unfold oob_models. rewrite length_map. revert models.
  induction bags as [|bag bags IH]; intros [|m models] Hl; simpl in *;
    try discriminate; [reflexivity|].
  destruct (not_in i bag); simpl; rewrite IH by congruence; reflexivity.
Qed.

(** Every prediction list has one entry per bag that misses its example. *)
Lemma averaged_rows self bags models (d : list X) (t : list V) :
  fitted self bags models d t -> predict_aligned ->
  exists lists,
    _get_averaged_oob_predictions self
    = Ok (set_oob_predictions (set_list_of_predictions_lists self lists)
            (averaged_predictions (num_bags self) lists)) /\
    length lists = length d /\
    forall i, i < length d ->
      exists row,
        nth_error lists i = Some row /\
        length row = length (filter (not_in i) bags).
Proof.
  intros Hfit Hal.
  destruct (averaged_spec Hfit Hal) as (lists & E & Hlen & Hrows).
  exists lists. split; [exact E|]. split; [exact Hlen|].
  intros i Hi. destruct (@index_lt _ d i Hi) as (x & Hx & _).
  destruct (Hrows i x Hx) as (row & Hnth & Hmap).
  exists row. split; [exact Hnth|].
  apply (f_equal (@length _)) in Hmap. rewrite !length_map in Hmap.
  rewrite Hmap. apply oob_models_length.
  destruct Hfit as (_ & _ & _ & _ & _ & Hb & Hm & _). congruence.
Qed.

(** X6. After the averaging step on a fitted ensemble, the averaged
    prediction of a training example is absent exactly when the example
    occurs in none of the bags; an example that occurs in every bag is not
    absent: it holds the mean of the empty list. *)
Theorem absent_iff_in_no_bag self bags models (d : list X) (t : list V) :
  fitted self bags models d t -> predict_aligned ->
  exists preds self',
    _get_averaged_oob_predictions self = Ok self' /\
    oob_predictions self' = Some preds /\
    forall i, i < length d ->
      (nth_error preds i = Some None
       <-> (forall bag, In bag bags -> ~ In i bag)) /\
      ((forall bag, In bag bags -> In i bag) ->
       nth_error preds i = Some (Some mean_of_empty)).
Proof.
  intros Hfit Hal.
  destruct (averaged_rows Hfit Hal) as (lists & E & Hlen & Hrows).
  destruct Hfit as (_ & _ & _ & _ & HB & Hb & _).
  eexists _, _. split; [exact E|]. split; [reflexivity|].
  intros i Hi. destruct (Hrows i Hi) as (row & Hnth & Hcount).
  unfold averaged_predictions. rewrite nth_error_map, Hnth. simpl.
  unfold averaged_prediction.
  pose proof (filter_length_le (not_in i) bags) as Hle.
  pose proof (filter_length_full (not_in i) bags) as Hfull.
  split; [split|].
  - destruct (Z.ltb_spec (Z.of_nat (length row)) (num_bags self)); [discriminate|].
    intros _ bag Hin. apply not_in_true. apply Hfull; [lia | exact Hin].
  - intros Hnone.
    assert (Hall : length (filter (not_in i) bags) = length bags).
    { apply Hfull. intros bag Hin. apply not_in_true. now apply Hnone. }
    destruct (Z.ltb_spec (Z.of_nat (length row)) (num_bags self)); [lia|].
    reflexivity.
  - intros Hevery.
    assert (Hrow : row = []).
    { destruct row as [|p row]; [reflexivity|]. exfalso.
      destruct (@filter_length_pos _ (not_in i) bags) as (bag & Hin & Hout).
      - rewrite <- Hcount. simpl. lia.
      - apply not_in_true in Hout. apply Hout. now apply Hevery. }
    subst row. simpl.
    destruct (Z.ltb_spec 0 (num_bags self)); [reflexivity | lia].
Qed.

(** An example adds a squared error only if its prediction list is neither
    empty nor as long as the ensemble. *)
Lemma contribution_row (B : Z) (lists : list (list V)) (t : list V) (i : nat) :
  nan_squared_error ->
  contribution (averaged_predictions B lists) t i <> [] ->
  exists row,
    nth_error lists i = Some row /\
    0 < length row /\ (Z.of_nat (length row) < B)%Z.
Proof.
  intros Hnan. unfold contribution, averaged_predictions. rewrite nth_error_map.
  destruct (nth_error lists i) as [row|]; simpl; [| congruence].
  unfold averaged_prediction.
  destruct (Z.ltb_spec (Z.of_nat (length row)) B) as [Hlt|Hge]; [| congruence].
  destruct (nth_error t i) as [ti|]; [| congruence].
  intros H. exists row. split; [reflexivity|]. split; [| exact Hlt].
  destruct row as [|p row]; [| simpl; lia].
  simpl in H. rewrite (Hnan ti) in H. congruence.
Qed.

(** X8. On a fitted ensemble, whenever [OOB_score] returns, its value is
    the mean of the contributions of the examples to the averaged
    predictions left by the averaging step, and an example contributes only
    if it occurs in at least one bag and is missing from at least one
    other: examples in every bag and examples in no bag are both left
    out. *)
Theorem scored_examples_mixed self bags models (d : list X) (t : list V) :
  fitted self bags models d t -> predict_aligned -> nan_squared_error ->
  exists preds self',
    _get_averaged_oob_predictions self = Ok self' /\
    oob_predictions self' = Some preds /\
    (forall v s,
       OOB_score self = Ok (v, s) ->
       v = np_mean (flat_map (contribution preds t) (seq 0 (length d))) /\
       s = self') /\
    forall i, contribution preds t i <> [] ->
      (exists bag, In bag bags /\ In i bag) /\
      (exists bag, In bag bags /\ ~ In i bag).
Proof.
  intros Hfit Hal Hnan.
  destruct (score_spec Hfit Hal)
    as (lists & E & Hlen & Hrows & Hok & Hraise & Hcases).
  eexists _, _. split; [exact E|]. split; [reflexivity|]. split.
  - intros v s Es. destruct Hcases as [Hacc|Hrej].
    + rewrite (Hok Hacc) in Es. injection Es as <- <-. split; reflexivity.
    + rewrite (Hraise Hrej) in Es. discriminate.
  - intros i Hc. apply contribution_row in Hc; [| exact Hnan].
    destruct Hc as (row & Hnth & Hpos & Hlt).
    assert (Hi : i < length d).
    { rewrite <- Hlen. apply nth_error_Some. congruence. }
    destruct (@index_lt _ d i Hi) as (x & Hx & _).
    destruct (Hrows i x Hx) as (row' & Hnth' & Hmap).
    assert (row' = row) by congruence. subst row'.
    destruct Hfit as (_ & _ & _ & _ & HB & Hb & Hm & _).
    assert (Hcount : length row = length (filter (not_in i) bags)).
    { apply (f_equal (@length _)) in Hmap. rewrite !length_map in Hmap.
      rewrite Hmap. apply oob_models_length. congruence. }
    split.
    + destruct (@filter_length_lt _ (not_in i) bags) as (bag & Hin & Hf); [lia|].
      exists bag. split; [exact Hin | now apply not_in_false].
    + destruct (@filter_length_pos _ (not_in i) bags) as (bag & Hin & Hf); [lia|].
      exists bag. split; [exact Hin | now apply not_in_true].
Qed.

Lemma flat_map_nil {A B : Type} (f : A -> list B) (l : list A) :
  (forall x, In x l -> f x = []) -> flat_map f l = [].
Proof.
  induction l as [|a l IH]; intros H; simpl; [reflexivity|].
  rewrite (H a (or_introl eq_refl)), IH; [reflexivity|].
  intros x Hx. apply H. now right.
Qed.

(** X7. With num_bags = 1 no example is ever scored: on every fitted
    ensemble [OOB_score] returns the mean of the empty list (NaN). *)
Theorem single_bag_score_is_nan self bags models (d : list X) (t : list V) :
  num_bags self = 1%Z ->
  fitted self bags models d t -> predict_aligned -> nan_squared_error ->
  exists self', OOB_score self = Ok (mean_of_empty, self').
Proof.
  intros HB Hfit Hal Hnan.
  destruct (score_spec Hfit Hal) as (lists & _ & _ & _ & E & _).
  rewrite HB in E.
  assert (Hacc : forall i, i < length d ->
            ~ nan_check_rejects (averaged_predictions 1 lists) t i)
    by (intros i _; now apply single_bag_accepts).
  eexists. rewrite (E Hacc). f_equal. f_equal.
  rewrite flat_map_nil; [reflexivity|].
  intros i _.
  destruct (contribution (averaged_predictions 1 lists) t i)
    as [|se rest] eqn:Ec; [reflexivity|]. exfalso.
  assert (Hc : contribution (averaged_predictions 1 lists) t i <> [])
    by congruence.
  apply contribution_row in Hc; [| exact Hnan].
  destruct Hc as (row & _ & Hpos & Hlt). lia.
Qed.

(** X9. [OOB_score] only writes its two derived attributes: when it
    returns, [num_bags], [oob], the bags, the models, the data and the
    targets are as before, and [predict] answers as before. *)
Theorem oob_score_keeps_ensemble self (v : V) self' :
  OOB_score self = Ok (v, self') ->
  num_bags self' = num_bags self /\
  oob self' = oob self /\
  indices_list self' = indices_list self /\
  models_list self' = models_list self /\
  data self' = data self /\
  target self' = target self /\
  forall features, predict self' features = predict self features.
Proof.
  intros E. destruct (OOB_score_state self E) as (l' & p' & ->).
  repeat split.
Qed.
End OOBMore.

(** * The further properties at work on the example runs *)

Lemma fit_without_bags_witness :
  fit example_no_bags (fun _ => 0%float) example_data example_target
    example_script
  = Raise (AssertionError "All bags should be of the same length!").
Proof.
  apply (fit_without_bags example_no_bags (fun _ => 0%float) example_data
           example_target example_script).
  simpl. lia.
Defined.

Lemma fit_errors_witness :
  AssertionError msg_same_length = IndexError \/
  (AssertionError msg_same_length = AssertionError msg_same_length /\
   (num_bags example_no_bags <= 0)%Z).
Proof.
  apply (fit_errors example_no_bags (fun _ => 0%float) example_data
           example_target example_script).
  reflexivity.
Defined.

Lemma fit_trains_on_bags_witness :
  exists bags models,
    indices_list example_fitted = Some bags /\
    models_list example_fitted = Some models /\
    Z.of_nat (length bags) = num_bags example_fitted /\
    Forall2 (fun bag m =>
               exists data_bag target_bag,
                 Forall2 (fun i x => nth_error example_data i = Some x)
                         bag data_bag /\
                 Forall2 (fun i y => nth_error example_target i = Some y)
                         bag target_bag /\
                 m = model_fit 0%float data_bag target_bag)
            bags models.
Proof.
  apply (fit_trains_on_bags (example_new false) (fun _ => 0%float)
           example_data example_target example_script (g' := [])).
  vm_compute. reflexivity.
Defined.

Lemma fit_keeps_oob_attributes_witness :
  list_of_predictions_lists example_fitted
  = list_of_predictions_lists (example_new false) /\
  oob_predictions example_fitted = oob_predictions (example_new false) /\
  num_bags example_fitted = num_bags (example_new false) /\
  oob example_fitted = oob (example_new false).
Proof.
  apply (fit_keeps_oob_attributes (example_new false) (fun _ => 0%float)
           example_data example_target example_script (g' := [])).
  vm_compute. reflexivity.
Defined.

Lemma fit_surplus_targets_witness :
  exists self' g' bags,
    fit (example_new false) (fun _ => 0%float) example_data
      (example_target ++ [9%float]) example_script = Ok (self', g') /\
    data self' = Some example_data /\
    target self' = Some (example_target ++ [9%float]) /\
    indices_list self' = Some bags /\
    Forall (Forall (fun i => i < 3)) bags.
Proof.
  apply (fit_surplus_targets (example_new false) (fun _ => 0%float)
           example_data (example_target ++ [9%float]) example_script
           scripted_in_range).
  - simpl. lia.
  - simpl. lia.
Defined.

Lemma fit_empty_dataset_witness :
  exists self',
    fit (example_new false) (fun _ => 0%float) [] [] example_script
    = Ok (self', example_script) /\
    indices_list self' = Some (repeat [] 2) /\
    exists self'', OOB_score self' = Ok (mean_of_empty, self'').
Proof.
  apply (fit_empty_dataset (example_new false) (fun _ => 0%float)
           example_script).
  simpl. lia.
Defined.

Lemma absent_iff_in_no_bag_witness :
  exists preds self',
    _get_averaged_oob_predictions example_fitted = Ok self' /\
    oob_predictions self' = Some preds /\
    forall i, i < 3 ->
      (nth_error preds i = Some None
       <-> (forall bag, In bag example_bags -> ~ In i bag)) /\
      ((forall bag, In bag example_bags -> In i bag) ->
       nth_error preds i = Some (Some mean_of_empty)).
Proof.
  apply (absent_iff_in_no_bag example_is_fitted (@mean_stub_aligned nat)).
Defined.

Lemma scored_examples_mixed_witness :
  exists preds self',
    _get_averaged_oob_predictions example_fitted = Ok self' /\
    oob_predictions self' = Some preds /\
    (forall v s,
       OOB_score example_fitted = Ok (v, s) ->
       v = np_mean (flat_map (contribution preds example_target) (seq 0 3)) /\
       s = self') /\
    forall i, contribution preds example_target i <> [] ->
      (exists bag, In bag example_bags /\ In i bag) /\
      (exists bag, In bag example_bags /\ ~ In i bag).
Proof.
  apply (scored_examples_mixed example_is_fitted (@mean_stub_aligned nat)
           float_nan_squared_error).
Defined.

Lemma single_bag_score_is_nan_witness :
  exists self', OOB_score single_bag_example = Ok (mean_of_empty, self').
Proof.
  apply (single_bag_score_is_nan (self := single_bag_example) eq_refl
           single_bag_example_is_fitted (@mean_stub_aligned nat)
           float_nan_squared_error).
Defined.

Lemma oob_score_keeps_ensemble_witness :
  exists v self',
    OOB_score example_fitted = Ok (v, self') /\
    num_bags self' = num_bags example_fitted /\
    oob self' = oob example_fitted /\
    indices_list self' = indices_list example_fitted /\
    models_list self' = models_list example_fitted /\
    data self' = data example_fitted /\
    target self' = target example_fitted /\
    forall features, predict self' features = predict example_fitted features.
Proof.
  eexists _, _. split; [vm_compute; reflexivity|].
  eapply (oob_score_keeps_ensemble example_fitted).
  vm_compute. reflexivity.
Defined.
